(** * pinata-cli: a shallow embedding of [pinata-cli.py]

    The program is a one-shot command-line client: every command reads the
    stored bearer token, performs at most one HTTP request and prints the
    outcome.  The embedding runs each Python function in a small
    state-and-exception monad over an explicit world: the file system, the
    lines waiting on standard input, and the chronological trace of
    observable events (prints, prompts, network requests).  The remote
    service and the home directory are read-only parameters of a run. *)

From Stdlib Require Import ZArith QArith Ascii String DecimalString.
From stdpp Require Import base strings list gmap.

#[local] Set Warnings "-register-all".

Local Open Scope string_scope.
Local Open Scope Z_scope.

(** ** Python strings

    A [str] is represented by the bytes of its UTF-8 encoding.  The
    separators and letters the program looks at are all ASCII, and no
    non-ASCII character lower-cases to an ASCII letter that matters here,
    so [split] and [lower] may work bytewise. *)

Definition is_upper (c : ascii) : bool :=
  let n := N_of_ascii c in ((65 <=? n) && (n <=? 90))%N.

Definition lower_ascii (c : ascii) : ascii :=
  if is_upper c then ascii_of_N (N_of_ascii c + 32) else c.

(** [str.lower()] *)
Fixpoint lower (s : string) : string :=
  match s with
  | EmptyString => EmptyString
  | String c s' => String (lower_ascii c) (lower s')
  end.

(** [str.split(sep)] for a one-character separator: never the empty list,
    and one more piece than there are separators. *)
Fixpoint split (sep : ascii) (s : string) : list string :=
  match s with
  | EmptyString => [EmptyString]
  | String c s' =>
      if Ascii.eqb c sep then EmptyString :: split sep s'
      else match split sep s' with
           | [] => [String c EmptyString]
           | piece :: rest => String c piece :: rest
           end
  end.

(** [c in s] for a character. *)
Fixpoint occurs (c : ascii) (s : string) : bool :=
  match s with
  | EmptyString => false
  | String d s' => Ascii.eqb d c || occurs c s'
  end.

(** [sub in s] for strings. *)
Definition is_substring (sub s : string) : bool :=
  match String.index 0 sub s with Some _ => true | None => false end.

Definition comma : ascii := ","%char.
Definition equals : ascii := "="%char.
Definition slash : ascii := "/"%char.
Definition CR : ascii := ascii_of_N 13.
Definition LF : ascii := ascii_of_N 10.

(** Decimal rendering of an integer, as [str(int)] and f-strings do. *)
Definition decimal (n : Z) : string :=
  NilZero.string_of_int (Z.to_int n).

(** ** Python values

    The values that travel through the program: what [response.json()]
    yields and what is printed.  A dict keeps its items in insertion order
    with distinct keys, as Python's does; a finite float is the rational
    it denotes. *)

Inductive pyval : Type :=
  | PNone
  | PBool (b : bool)
  | PInt (n : Z)
  | PFloat (q : Q)
  | PStr (s : string)
  | PList (items : list pyval)
  | PDict (items : list (string * pyval)).

(** Truth value of an object, as in [if x:] and [not x]. *)
Definition truthy (v : pyval) : bool :=
  match v with
  | PNone => false
  | PBool b => b
  | PInt n => negb (n =? 0)
  | PFloat q => negb (Qnum q =? 0)
  | PStr s => negb (String.eqb s "")
  | PList items => match items with [] => false | _ => true end
  | PDict items => match items with [] => false | _ => true end
  end.

(** First item stored under a key. *)
Fixpoint assoc (k : string) (items : list (string * pyval)) : option pyval :=
  match items with
  | [] => None
  | (k', v) :: rest => if String.eqb k' k then Some v else assoc k rest
  end.

(** ** Exceptions *)

Inductive exn_class : Type :=
  | FileNotFoundError | PermissionError | IsADirectoryError
  | NotADirectoryError | FileExistsError | UnicodeDecodeError | EOFError
  | ValueError | IndexError | KeyError | TypeError | AttributeError
  | HTTPError | ConnectionError | Timeout | JSONDecodeError.

(** [SystemExit] derives from [BaseException] only, so [except Exception]
    lets it through; every class of [exn_class] derives from [Exception]. *)
Inductive exn : Type :=
  | SystemExit (code : Z)
  | Error (cls : exn_class) (msg : string).

Definition is_Exception (e : exn) : bool :=
  match e with SystemExit _ => false | Error _ _ => true end.

Definition is_FileNotFoundError (e : exn) : bool :=
  match e with Error FileNotFoundError _ => true | _ => false end.

Definition is_HTTPError (e : exn) : bool :=
  match e with Error HTTPError _ => true | _ => false end.

(** [str(e)], as interpolated by [f"...{e}"]. *)
Definition exn_str (e : exn) : string :=
  match e with
  | SystemExit code => decimal code
  | Error _ msg => msg
  end.

(** ** The world *)

(** A file holds text, or bytes that the locale codec cannot decode. *)
Inductive content : Type :=
  | Text (s : string)
  | Binary (bytes : string).

Inductive node : Type :=
  | Dir (writable : bool)
  | File (readable writable : bool) (c : content).

Inductive http_method : Type := GET | POST | PUT | DELETE.

Inductive payload : Type :=
  | NoBody
  | JsonBody (v : pyval)
  | Multipart (filename : string) (file_bytes : string)
              (fields : list (string * string)).

Record request : Type := Request {
  meth : http_method;
  url : string;
  headers : list (string * string);
  body : payload
}.

(** [json_body = None]: the body is not JSON and [response.json()] raises. *)
Record response : Type := Response {
  status_code : Z;
  reason : string;
  json_body : option pyval
}.

Inductive net_result : Type :=
  | Transport (cls : exn_class) (msg : string)
  | Reply (r : response).

(** A cell handed to [tabulate]: a value, or [str(v)] of a value. *)
Inductive cell : Type :=
  | CVal (v : pyval)
  | CStrOf (v : pyval).

(** One argument of a [print] call. *)
Inductive printed : Type :=
  | Txt (s : string)
  | Obj (v : pyval)
  | Table (rows : list (list cell)) (header : list string) (tablefmt : string).

Inductive event : Type :=
  | EPrint (args : list printed)
  | EPrompt (prompt : string)
  | ENet (r : request).

Record state : Type := State {
  fs : gmap string node;
  stdin : list string;
  trace : list event
}.

(** What a run cannot change: the home directory that
    [os.path.expanduser("~")] resolves to, and the remote service. *)
Record env : Type := Env {
  home : string;
  net : request → net_result
}.

(** ** The monad of Python statements *)

Inductive res (A : Type) : Type :=
  | Val (a : A)
  | Exc (e : exn).
Arguments Val {A} a.
Arguments Exc {A} e.

Definition M (A : Type) : Type := state → state * res A.

Definition ret {A} (a : A) : M A := fun s => (s, Val a).

Definition bind {A B} (m : M A) (k : A → M B) : M B :=
  fun s => match m s with
           | (s', Val a) => k a s'
           | (s', Exc e) => (s', Exc e)
           end.

Definition raise {A} (e : exn) : M A := fun s => (s, Exc e).

(** Lifting of a pure computation that may raise. *)
Definition lift {A} (r : res A) : M A := fun s => (s, r).

Notation "x <- m ;; k" := (bind m (fun x => k))
  (at level 100, m at next level, right associativity).
Notation "m ;; k" := (bind m (fun _ => k))
  (at level 100, right associativity).

(** [try: m  except <h1>: ...  except <h2>: ...]: the first clause whose
    class test accepts the exception handles it. *)
Fixpoint select_handler {A} (hs : list ((exn → bool) * (exn → M A)))
    (e : exn) : option (M A) :=
  match hs with
  | [] => None
  | (matches, h) :: rest =>
      if matches e then Some (h e) else select_handler rest e
  end.

Definition try_except {A} (m : M A)
    (hs : list ((exn → bool) * (exn → M A))) : M A :=
  fun s => match m s with
           | (s', Val a) => (s', Val a)
           | (s', Exc e) =>
               match select_handler hs e with
               | Some h => h s'
               | None => (s', Exc e)
               end
           end.

Definition emit (e : event) : M unit :=
  fun s => (State (fs s) (stdin s) (trace s ++ [e])%list, Val tt).

Definition print (args : list printed) : M unit := emit (EPrint args).

(** [sys.exit(code)] *)
Definition sys_exit {A} (code : Z) : M A := raise (SystemExit code).

(** [input(prompt)]: shows the prompt and takes the next line, without
    its newline; end of input raises [EOFError]. *)
Definition input (prompt : string) : M string :=
  emit (EPrompt prompt) ;;
  fun s => match stdin s with
           | [] => (s, Exc (Error EOFError "EOF when reading a line"))
           | line :: rest => (State (fs s) rest (trace s), Val line)
           end.

(** The status the interpreter hands to the operating system: 0 after a
    normal return, the code of a [SystemExit], 1 after a traceback. *)
Definition exit_status {A} (r : res A) : Z :=
  match r with
  | Val _ => 0
  | Exc (SystemExit code) => code
  | Exc (Error _ _) => 1
  end.

(** The requests issued during a run. *)
Fixpoint net_calls (t : list event) : list request :=
  match t with
  | [] => []
  | ENet r :: t' => r :: net_calls t'
  | _ :: t' => net_calls t'
  end.

(** ** Paths and files (POSIX) *)

Definition starts_with_slash (p : string) : bool :=
  match p with String c _ => Ascii.eqb c slash | EmptyString => false end.

Fixpoint ends_with_slash (p : string) : bool :=
  match p with
  | EmptyString => false
  | String c EmptyString => Ascii.eqb c slash
  | String _ p' => ends_with_slash p'
  end.

(** [os.path.join(a, b)] *)
Definition path_join (a b : string) : string :=
  if starts_with_slash b then b
  else if String.eqb a "" || ends_with_slash a then a +:+ b
  else a +:+ "/" +:+ b.

(** The directory an entry lives in. *)
Definition parent_dir (p : string) : string :=
  let d := String.concat "/" (removelast (split slash p)) in
  if String.eqb d "" then (if starts_with_slash p then "/" else ".") else d.

Definition os_error (cls : exn_class) (errno what path : string) : exn :=
  Error cls ("[Errno " +:+ errno +:+ "] " +:+ what +:+ ": '" +:+ path +:+ "'").

Definition no_such_file := os_error FileNotFoundError "2" "No such file or directory".
Definition permission_denied := os_error PermissionError "13" "Permission denied".
Definition is_a_directory := os_error IsADirectoryError "21" "Is a directory".
Definition not_a_directory := os_error NotADirectoryError "20" "Not a directory".
Definition file_exists := os_error FileExistsError "17" "File exists".

Definition set_fs (f : gmap string node) : M unit :=
  fun s => (State f (stdin s) (trace s), Val tt).

(** [open(path, 'r')] and [open(path, 'rb')]: the stored content. *)
Definition open_read (path : string) : M content :=
  fun s => match fs s !! path with
           | None => (s, Exc (no_such_file path))
           | Some (Dir _) => (s, Exc (is_a_directory path))
           | Some (File false _ _) => (s, Exc (permission_denied path))
           | Some (File true _ c) => (s, Val c)
           end.

(** Text mode reads with universal newlines: a carriage return, alone or
    followed by a line feed, arrives as one line feed. *)
Fixpoint universal_newlines (after_cr : bool) (s : string) : string :=
  match s with
  | EmptyString => EmptyString
  | String c s' =>
      if Ascii.eqb c CR then String LF (universal_newlines true s')
      else if Ascii.eqb c LF then
        (if after_cr then universal_newlines false s'
         else String LF (universal_newlines false s'))
      else String c (universal_newlines false s')
  end.

(** [file.read()] on a text-mode handle. *)
Definition read_text (c : content) : res string :=
  match c with
  | Text s => Val (universal_newlines false s)
  | Binary _ =>
      Exc (Error UnicodeDecodeError "'utf-8' codec can't decode bytes")
  end.

(** [file.read()] on a binary-mode handle. *)
Definition read_bytes (c : content) : string :=
  match c with Text s => s | Binary b => b end.

(** [open(path, 'w')]: truncates an existing file, creates a missing one
    in an existing writable directory. *)
Definition open_write (path : string) : M unit :=
  fun s =>
    match fs s !! path with
    | Some (Dir _) => (s, Exc (is_a_directory path))
    | Some (File _ false _) => (s, Exc (permission_denied path))
    | Some (File r true _) =>
        set_fs (<[path := File r true (Text "")]> (fs s)) s
    | None =>
        match fs s !! parent_dir path with
        | None => (s, Exc (no_such_file path))
        | Some (File _ _ _) => (s, Exc (not_a_directory path))
        | Some (Dir false) => (s, Exc (permission_denied path))
        | Some (Dir true) =>
            set_fs (<[path := File true true (Text "")]> (fs s)) s
        end
    end.

(** [file.write(text)] on a handle opened with ['w']; the line separator
    is the line feed, so the text is stored as it is. *)
Definition write_text (path text : string) : M unit :=
  fun s =>
    match fs s !! path with
    | Some (File r w _) => set_fs (<[path := File r w (Text text)]> (fs s)) s
    | _ => (s, Exc (no_such_file path))
    end.

(** [os.path.exists(path)] *)
Definition path_exists (path : string) : M bool :=
  fun s => (s, Val (bool_decide (is_Some (fs s !! path)))).

(** [os.mkdir(path)] *)
Definition mkdir (path : string) : M unit :=
  fun s =>
    match fs s !! path with
    | Some _ => (s, Exc (file_exists path))
    | None =>
        match fs s !! parent_dir path with
        | None => (s, Exc (no_such_file path))
        | Some (File _ _ _) => (s, Exc (not_a_directory path))
        | Some (Dir false) => (s, Exc (permission_denied path))
        | Some (Dir true) => set_fs (<[path := Dir true]> (fs s)) s
        end
    end.

Definition is_FileExistsError (e : exn) : bool :=
  match e with Error FileExistsError _ => true | _ => false end.

(** [os.makedirs(path)]: missing ancestors first, then the leaf. *)
Fixpoint makedirs_from (depth : nat) (path : string) : M unit :=
  match depth with
  | O => mkdir path
  | S depth' =>
      let head := parent_dir path in
      head_exists <- path_exists head ;;
      (if head_exists then ret tt
       else try_except (makedirs_from depth' head)
              [(is_FileExistsError, fun _ => ret tt)]) ;;
      mkdir path
  end.

Definition makedirs (path : string) : M unit :=
  makedirs_from (String.length path) path.

(** ** Operations on Python values *)

Definition rbind {A B} (r : res A) (k : A → res B) : res B :=
  match r with
  | Val a => k a
  | Exc e => Exc e
  end.

Notation "x <- r ;;; k" := (rbind r (fun x => k))
  (at level 100, r at next level, right associativity).

(** A comprehension whose element expression may raise: the first
    exception ends it. *)
Fixpoint traverse {A B} (f : A → res B) (l : list A) : res (list B) :=
  match l with
  | [] => Val []
  | a :: l' =>
      b <- f a ;;;
      bs <- traverse f l' ;;;
      Val (b :: bs)
  end.

Definition type_name (v : pyval) : string :=
  match v with
  | PNone => "NoneType"
  | PBool _ => "bool"
  | PInt _ => "int"
  | PFloat _ => "float"
  | PStr _ => "str"
  | PList _ => "list"
  | PDict _ => "dict"
  end.

(** [v.get(key, default)]: only a dict has the method. *)
Definition py_get (v : pyval) (key : string) (default : pyval) : res pyval :=
  match v with
  | PDict items =>
      Val (match assoc key items with Some x => x | None => default end)
  | _ => Exc (Error AttributeError
                ("'" +:+ type_name v +:+ "' object has no attribute 'get'"))
  end.

(** [v[key]] for a string key. *)
Definition py_getitem (v : pyval) (key : string) : res pyval :=
  match v with
  | PDict items =>
      match assoc key items with
      | Some x => Val x
      | None => Exc (Error KeyError ("'" +:+ key +:+ "'"))
      end
  | PList _ =>
      Exc (Error TypeError "list indices must be integers or slices, not str")
  | PStr _ =>
      Exc (Error TypeError "string indices must be integers, not 'str'")
  | _ => Exc (Error TypeError
                ("'" +:+ type_name v +:+ "' object is not subscriptable"))
  end.

Definition is_PStr (key : string) (v : pyval) : bool :=
  match v with PStr s => String.eqb s key | _ => false end.

(** [key in v] for a string key: a key of a dict, an element of a list, a
    substring of a string. *)
Definition py_contains (key : string) (v : pyval) : res bool :=
  match v with
  | PDict items => Val (match assoc key items with Some _ => true | None => false end)
  | PList items => Val (existsb (is_PStr key) items)
  | PStr s => Val (is_substring key s)
  | _ => Exc (Error TypeError
                ("argument of type '" +:+ type_name v +:+ "' is not iterable"))
  end.

Fixpoint characters (s : string) : list pyval :=
  match s with
  | EmptyString => []
  | String c s' => PStr (String c EmptyString) :: characters s'
  end.

(** [for x in v]: the elements of a list, the keys of a dict, the
    characters of a string. *)
Definition py_iter (v : pyval) : res (list pyval) :=
  match v with
  | PList items => Val items
  | PDict items => Val (map (fun kv => PStr (fst kv)) items)
  | PStr s => Val (characters s)
  | _ => Exc (Error TypeError
                ("'" +:+ type_name v +:+ "' object is not iterable"))
  end.

(** [l[i]] on a list, negative indices counting from the end. *)
Definition py_index {A} (l : list A) (i : Z) : res A :=
  let n := Z.of_nat (length l) in
  let j := if i <? 0 then i + n else i in
  if (j <? 0) || (n <=? j) then Exc (Error IndexError "list index out of range")
  else match l !! Z.to_nat j with
       | Some x => Val x
       | None => Exc (Error IndexError "list index out of range")
       end.

(** [a, b = l] *)
Definition unpack2 {A} (l : list A) : res (A * A) :=
  match l with
  | [a; b] => Val (a, b)
  | [] | [_] =>
      Exc (Error ValueError
             ("not enough values to unpack (expected 2, got "
              +:+ decimal (Z.of_nat (length l)) +:+ ")"))
  | _ => Exc (Error ValueError "too many values to unpack (expected 2)")
  end.

(** The table of [get_pinata_file_details]: eight fixed rows, each value
    defaulting to "N/A", then the key-values row when there are any. *)
Definition detail_rows (file_data : pyval) : res (list (list cell)) :=
  id <- py_get file_data "id" (PStr "N/A") ;;;
  name <- py_get file_data "name" (PStr "N/A") ;;;
  cid <- py_get file_data "cid" (PStr "N/A") ;;;
  size <- py_get file_data "size" (PStr "N/A") ;;;
  number_of_files <- py_get file_data "number_of_files" (PStr "N/A") ;;;
  mime_type <- py_get file_data "mime_type" (PStr "N/A") ;;;
  group_id <- py_get file_data "group_id" (PStr "N/A") ;;;
  created_at <- py_get file_data "created_at" (PStr "N/A") ;;;
  let table_data :=
    [[CVal (PStr "ID"); CVal id];
     [CVal (PStr "Name"); CVal name];
     [CVal (PStr "CID"); CVal cid];
     [CVal (PStr "Size (bytes)"); CVal size];
     [CVal (PStr "Number of Files"); CVal number_of_files];
     [CVal (PStr "MIME Type"); CVal mime_type];
     [CVal (PStr "Group ID"); CVal group_id];
     [CVal (PStr "Created At"); CVal created_at]] in
  keyvalues <- py_get file_data "keyvalues" (PDict []) ;;;
  if truthy keyvalues then
    Val (table_data ++ [[CVal (PStr "Keyvalues"); CStrOf keyvalues]])%list
  else Val table_data.

(** ** The program *)

(** What [read_token] returns: the value [False], or the file's text. *)
Inductive token : Type :=
  | NoToken
  | Token (s : string).

Definition token_truthy (t : token) : bool :=
  match t with NoToken => false | Token s => negb (String.eqb s "") end.

(** [f"{api_key}"] *)
Definition token_str (t : token) : string :=
  match t with NoToken => "False" | Token s => s end.

Section Program.

Variable E : env.

Definition create_pinata_directory (dir_name : string) : M bool :=
  let home_directory := home E in
  let directory_path := path_join home_directory dir_name in
  try_except
    (there <- path_exists directory_path ;;
     if negb there then
       makedirs directory_path ;;
       ret true
     else ret true)
    [(is_Exception, fun e =>
        print [Txt ("An error occurred while creating the directory: "
                    +:+ exn_str e)] ;;
        ret false)].

Definition save_token_to_file (file_name content : string) : M bool :=
  let home_directory := home E in
  let dir_path := path_join home_directory ".pinata" in
  let file_path := path_join dir_path file_name in
  try_except
    (open_write file_path ;;
     write_text file_path content ;;
     ret true)
    [(is_Exception, fun e =>
        print [Txt ("An error occurred while saving the content: "
                    +:+ exn_str e)] ;;
        ret false)].

Definition read_token : M token :=
  let home_directory := home E in
  let file_path :=
    path_join (path_join home_directory ".pinata") ".credentials" in
  try_except
    (file <- open_read file_path ;;
     content <- lift (read_text file) ;;
     ret (Token content))
    [(is_FileNotFoundError, fun _ => ret NoToken);
     (is_Exception, fun _ => ret NoToken)].

(** *** The [requests] library *)

(** [requests.get/post/put/delete]: one exchange with the remote service;
    a transport failure surfaces as an exception. *)
Definition send (r : request) : M response :=
  emit (ENet r) ;;
  match net E r with
  | Transport cls msg => raise (Error cls msg)
  | Reply resp => ret resp
  end.

(** [response.raise_for_status()]: 4xx and 5xx raise [HTTPError]. *)
Definition raise_for_status (u : string) (r : response) : M unit :=
  let code := status_code r in
  if (400 <=? code) && (code <? 500) then
    raise (Error HTTPError (decimal code +:+ " Client Error: " +:+ reason r
                            +:+ " for url: " +:+ u))
  else if (500 <=? code) && (code <? 600) then
    raise (Error HTTPError (decimal code +:+ " Server Error: " +:+ reason r
                            +:+ " for url: " +:+ u))
  else ret tt.

(** [response.json()] *)
Definition response_json (r : response) : M pyval :=
  match json_body r with
  | Some v => ret v
  | None =>
      raise (Error JSONDecodeError "Expecting value: line 1 column 1 (char 0)")
  end.

Definition missing_token_message : string :=
  "Error Reading Pinata API Token, Run Setup First using ./pinata-cli -s".

Definition error_dict (msg : string) : pyval := PDict [("error", PStr msg)].

Definition http_error_text (e : exn) : string :=
  "HTTP error occurred: " +:+ exn_str e.

Definition other_error_text (e : exn) : string :=
  "An error occurred: " +:+ exn_str e.

(** *** Commands *)

Definition test_pinata_authentication : M pyval :=
  api_key <- read_token ;;
  (if negb (token_truthy api_key) then
     print [Txt missing_token_message] ;;
     sys_exit 1
   else ret tt) ;;
  let url := "https://api.pinata.cloud/data/testAuthentication" in
  let headers := [("accept", "application/json");
                  ("authorization", "Bearer " +:+ token_str api_key)] in
  try_except
    (response <- send (Request GET url headers NoBody) ;;
     raise_for_status url response ;;
     parsed <- response_json response ;;
     message <- lift (py_get parsed "message" PNone) ;;
     print [Obj message] ;;
     response_json response)
    [(is_HTTPError, fun http_err => ret (error_dict (http_error_text http_err)));
     (is_Exception, fun err => ret (error_dict (other_error_text err)))].

Definition upload_file_to_pinata (file_path : string) : M pyval :=
  api_key <- read_token ;;
  (if negb (token_truthy api_key) then
     print [Txt missing_token_message] ;;
     sys_exit 1
   else ret tt) ;;
  let url := "https://uploads.pinata.cloud/v3/files" in
  let headers := [("Authorization", "Bearer " +:+ token_str api_key)] in
  file_data <- open_read file_path ;;
  file_name <- lift (py_index (split slash file_path) (-1)) ;;
  data_name <- lift (py_index (split slash file_path) (-1)) ;;
  let data := [("name", data_name)] in
  try_except
    (print [Txt "File Uploading....."] ;;
     response <- send (Request POST url headers
                         (Multipart file_name (read_bytes file_data) data)) ;;
     raise_for_status url response ;;
     print [Txt "File Uploaded Successfully, use -l to list new files"] ;;
     response_json response)
    [(is_HTTPError, fun http_err =>
        print [Obj (error_dict (http_error_text http_err))] ;; ret PNone);
     (is_Exception, fun err =>
        print [Obj (error_dict (other_error_text err))] ;; ret PNone)].

Definition display_pinata_files (files_data : pyval) : M unit :=
  let headers := ["ID"; "Name"; "CID"; "Group ID"] in
  table_data <- lift
    (files <- py_iter files_data ;;;
     traverse (fun file =>
       id <- py_getitem file "id" ;;;
       name <- py_getitem file "name" ;;;
       cid <- py_getitem file "cid" ;;;
       group_id <- py_getitem file "group_id" ;;;
       Val [CVal id; CVal name; CVal cid; CVal group_id]) files) ;;
  print [Table table_data headers "pretty"].

Definition get_pinata_files : M pyval :=
  api_key <- read_token ;;
  (if negb (token_truthy api_key) then
     print [Txt missing_token_message] ;;
     sys_exit 1
   else ret tt) ;;
  let url := "https://api.pinata.cloud/v3/files" in
  let headers := [("Authorization", "Bearer " +:+ token_str api_key)] in
  try_except
    (response <- send (Request GET url headers NoBody) ;;
     raise_for_status url response ;;
     result <- response_json response ;;
     has_files <- lift
       (has_data <- py_contains "data" result ;;;
        if has_data then
          inner <- py_getitem result "data" ;;;
          py_contains "files" inner
        else Val false) ;;
     (if has_files then
        files <- lift (inner <- py_getitem result "data" ;;;
                       py_getitem inner "files") ;;
        display_pinata_files files
      else print [Txt "Error:"; Obj result]) ;;
     response_json response)
    [(is_HTTPError, fun http_err => ret (error_dict (http_error_text http_err)));
     (is_Exception, fun err => ret (error_dict (other_error_text err)))].

Definition get_pinata_file_details (file_id : string) : M pyval :=
  api_key <- read_token ;;
  (if negb (token_truthy api_key) then
     print [Txt missing_token_message] ;;
     sys_exit 1
   else ret tt) ;;
  let url := "https://api.pinata.cloud/v3/files/" +:+ file_id in
  let headers := [("Authorization", "Bearer " +:+ token_str api_key)] in
  try_except
    (response <- send (Request GET url headers NoBody) ;;
     raise_for_status url response ;;
     parsed <- response_json response ;;
     file_data <- lift (py_get parsed "data" (PDict [])) ;;
     table_data <- lift (detail_rows file_data) ;;
     print [Table table_data ["Field"; "Value"] "pretty"] ;;
     ret PNone)
    [(is_HTTPError, fun http_err =>
        print [Txt (http_error_text http_err)] ;; ret PNone);
     (is_Exception, fun err =>
        print [Txt (other_error_text err)] ;; ret PNone)].

Definition update_pinata_file (data : string) : M pyval :=
  pair <- lift (unpack2 (split comma data)) ;;
  let '(file_id, new_name) := pair in
  file_id <- lift (py_index (split equals file_id) 1) ;;
  new_name <- lift (py_index (split equals new_name) 1) ;;
  api_key <- read_token ;;
  (if negb (token_truthy api_key) then
     print [Txt missing_token_message] ;;
     sys_exit 1
   else ret tt) ;;
  let url := "https://api.pinata.cloud/v3/files/" +:+ file_id in
  let keyvalues := PDict [] in
  let payload := PDict [("name", PStr new_name); ("keyvalues", keyvalues)] in
  let headers := [("Authorization", "Bearer " +:+ token_str api_key);
                  ("Content-Type", "application/json")] in
  try_except
    (response <- send (Request PUT url headers (JsonBody payload)) ;;
     raise_for_status url response ;;
     print [Txt "values updated successfully, run -l to check updated values"] ;;
     response_json response)
    [(is_HTTPError, fun http_err =>
        print [Obj (error_dict (http_error_text http_err))] ;; ret PNone);
     (is_Exception, fun err =>
        print [Obj (error_dict (other_error_text err))] ;; ret PNone)].

Definition confirms : list string := ["y"; "yes"].

Definition delete_pinata_file (file_id : string) : M pyval :=
  api_key <- read_token ;;
  (if negb (token_truthy api_key) then
     print [Txt missing_token_message] ;;
     sys_exit 1
   else ret tt) ;;
  user_confirmation <- input ("Are you Sure you want to Delete the file with ID ["
                              +:+ file_id +:+ "] (Yes / No):") ;;
  (if String.eqb user_confirmation "" then
     print [Txt "exiting as there are no inputs, Default is NO"] ;;
     sys_exit 1
   else ret tt) ;;
  (if negb (bool_decide (lower user_confirmation ∈ confirms)) then
     print [Txt "User Confirmed NO"] ;;
     sys_exit 1
   else ret tt) ;;
  let url := "https://api.pinata.cloud/v3/files/" +:+ file_id in
  let headers := [("Authorization", "Bearer " +:+ token_str api_key)] in
  try_except
    (response <- send (Request DELETE url headers NoBody) ;;
     raise_for_status url response ;;
     (if status_code response =? 200 then print [Txt "File deleted successfully"]
      else response_json response ;; ret tt) ;;
     ret PNone)
    [(is_HTTPError, fun http_err =>
        print [Obj (error_dict (http_error_text http_err))] ;; ret PNone);
     (is_Exception, fun err =>
        print [Obj (error_dict (other_error_text err))] ;; ret PNone)].

Definition setup_pinata_api : M pyval :=
  JWT <- input "Enter Your Pinata JWT:" ;;
  ret_status <- create_pinata_directory ".pinata" ;;
  if ret_status then
    save_status <- save_token_to_file ".credentials" JWT ;;
    if save_status then
      print [Txt "Token Saved Sucessfully, You can Proceed with Other Activities"] ;;
      sys_exit 0
    else
      print [Txt "Error in Saving JWT Token"] ;;
      sys_exit 1
  else
    print [Txt "Error in Saving JWT Token"] ;;
    sys_exit 1.

(** *** The dispatcher *)

Definition banner : string :=
"  _____ _             _             _____ _      _____
 |  __ (_)           | |           / ____| |    |_   _|
 | |__) | _ __   __ _| |_ __ _    | |    | |      | |
 |  ___/ | '_ \ / _` | __/ _` |   | |    | |      | |
 | |   | | | | | (_| | || (_| |   | |____| |____ _| |_
 |_|   |_|_| |_|\__,_|\__\__,_|    \_____|______|_____|
                                                       ".

(** The namespace [parse_args] hands back: flags are booleans, valued
    options are [None] when not given. *)
Record args : Type := Args {
  setup : bool;
  authtest : bool;
  uploadfile : option string;
  listfiles : bool;
  getfile : option string;
  updatefile : option string;
  deletefile : option string
}.

(** Truth value of a valued option: given and not the empty string. *)
Definition given (o : option string) : bool :=
  match o with
  | Some v => negb (String.eqb v "")
  | None => false
  end.

Definition main (a : args) : M unit :=
  print [Txt banner] ;;
  if setup a then setup_pinata_api ;; ret tt
  else if authtest a then test_pinata_authentication ;; ret tt
  else if given (uploadfile a) then
    upload_file_to_pinata (default "" (uploadfile a)) ;; ret tt
  else if listfiles a then get_pinata_files ;; ret tt
  else if given (getfile a) then
    get_pinata_file_details (default "" (getfile a)) ;; ret tt
  else if given (updatefile a) then
    update_pinata_file (default "" (updatefile a)) ;; ret tt
  else if given (deletefile a) then
    delete_pinata_file (default "" (deletefile a)) ;; ret tt
  else
    print [Txt "Error: Invalid Options, Use -h for detailed Help"] ;;
    sys_exit 1.

End Program.

(** The path of the credential file. *)
Definition credentials_path (E : env) : string :=
  path_join (path_join (home E) ".pinata") ".credentials".

(** Outcome and trace of running a command from a state. *)
Definition outcome {A} (m : M A) (s : state) : res A := snd (m s).
Definition events {A} (m : M A) (s : state) : list event := trace (fst (m s)).
Definition requests {A} (m : M A) (s : state) : list request :=
  net_calls (events m s).

(** A fresh process: nothing observed yet. *)
Definition start (files : gmap string node) (lines : list string) : state :=
  State files lines [].

(** The token that [read_token] finds in a file system: the text of a
    readable, decodable credential file. *)
Definition stored_token (E : env) (files : gmap string node) : token :=
  match files !! credentials_path E with
  | Some (File true _ (Text raw)) => Token (universal_newlines false raw)
  | _ => NoToken
  end.

(** The credential file does not exist or cannot be read. *)
Inductive unavailable (files : gmap string node) (path : string) : Prop :=
  | missing :
      files !! path = None → unavailable files path
  | directory_in_place w :
      files !! path = Some (Dir w) → unavailable files path
  | not_permitted w c :
      files !! path = Some (File false w c) → unavailable files path
  | undecodable w bytes :
      files !! path = Some (File true w (Binary bytes)) →
      unavailable files path.

(** The credential file exists, can be read, and holds nothing. *)
Definition empty_file (files : gmap string node) (path : string) : Prop :=
  ∃ w, files !! path = Some (File true w (Text "")).

(** No usable credential: absent, or an empty file. *)
Definition no_credential (E : env) (files : gmap string node) : Prop :=
  unavailable files (credentials_path E) ∨ empty_file files (credentials_path E).

(** A command is refused: the process ends with a non-zero status and no
    request has been sent. *)
Definition refused {A} (m : M A) (s : state) : Prop :=
  exit_status (outcome m s) ≠ 0 ∧ requests m s = [].

(** The inputs that equal "y" or "yes" when letter case is ignored. *)
Definition affirmative_inputs : list string :=
  ["y"; "Y"; "yes"; "yeS"; "yEs"; "yES"; "Yes"; "YeS"; "YEs"; "YES"].

Definition affirmative (line : string) : bool :=
  bool_decide (line ∈ affirmative_inputs).

(** The request that deletes a file on behalf of a token. *)
Definition delete_request (tok file_id : string) : request :=
  Request DELETE ("https://api.pinata.cloud/v3/files/" +:+ file_id)
    [("Authorization", "Bearer " +:+ tok)] NoBody.

(** The request that renames a file on behalf of a token. *)
Definition update_request (tok file_id new_name : string) : request :=
  Request PUT ("https://api.pinata.cloud/v3/files/" +:+ file_id)
    [("Authorization", "Bearer " +:+ tok);
     ("Content-Type", "application/json")]
    (JsonBody (PDict [("name", PStr new_name); ("keyvalues", PDict [])])).

(** A record carries a field. *)
Definition has_field (key : string) (record : pyval) : bool :=
  match record with
  | PDict items => match assoc key items with Some _ => true | None => false end
  | _ => false
  end.

(** A file record as a listing shows it: a dict with the four fields. *)
Definition listed (record : pyval) : bool :=
  has_field "id" record && has_field "name" record &&
  has_field "cid" record && has_field "group_id" record.

(** The value a record holds in a column. *)
Definition column (key : string) (record : pyval) : pyval :=
  match record with
  | PDict items => default PNone (assoc key items)
  | _ => PNone
  end.

Definition list_row (record : pyval) : list cell :=
  [CVal (column "id" record); CVal (column "name" record);
   CVal (column "cid" record); CVal (column "group_id" record)].

(** Labels of the detail table, each with the field it shows. *)
Definition detail_fields : list (string * string) :=
  [("ID", "id"); ("Name", "name"); ("CID", "cid"); ("Size (bytes)", "size");
   ("Number of Files", "number_of_files"); ("MIME Type", "mime_type");
   ("Group ID", "group_id"); ("Created At", "created_at")].

Definition detail_row (items : list (string * pyval))
    (field : string * string) : list cell :=
  [CVal (PStr (fst field));
   CVal (default (PStr "N/A") (assoc (snd field) items))].

Definition keyvalues_row (kvs : list (string * pyval)) : list (list cell) :=
  match kvs with
  | [] => []
  | _ => [[CVal (PStr "Keyvalues"); CStrOf (PDict kvs)]]
  end.

(** The request that fetches the details of a file. *)
Definition details_request (tok file_id : string) : request :=
  Request GET ("https://api.pinata.cloud/v3/files/" +:+ file_id)
    [("Authorization", "Bearer " +:+ tok)] NoBody.

(** The request that lists the files. *)
Definition listing_request (tok : string) : request :=
  Request GET "https://api.pinata.cloud/v3/files"
    [("Authorization", "Bearer " +:+ tok)] NoBody.

(** A pure step fails, if at all, with an [Exception]. *)
Definition fails_softly {A} (r : res A) : Prop :=
  match r with
  | Val _ => True
  | Exc e => is_Exception e = true
  end.

(** A statement raises, if at all, an [Exception]. *)
Definition raises_softly {A} (m : M A) : Prop :=
  ∀ s, fails_softly (snd (m s)).

(** A statement always returns. *)
Definition returns {A} (m : M A) : Prop :=
  ∀ s, ∃ v, snd (m s) = Val v.

(** ** Example worlds *)

Definition offline : request → net_result :=
  fun _ => Transport ConnectionError "Connection refused".

Definition replying (r : response) : request → net_result :=
  fun _ => Reply r.

Definition example_env (service : request → net_result) : env :=
  Env "/home/u" service.

Definition bare_home : gmap string node := {[ "/home/u" := Dir true ]}.

Definition home_with_token (tok : string) : gmap string node :=
  {[ "/home/u" := Dir true;
     "/home/u/.pinata" := Dir true;
     "/home/u/.pinata/.credentials" := File true true (Text tok) ]}.

Definition listing_example : pyval :=
  PDict [("id", PStr "1"); ("name", PStr "a.txt"); ("cid", PStr "Qm1");
         ("group_id", PNone)].

(** A detail record that lacks its MIME type. *)
Definition detail_example : list (string * pyval) :=
  [("id", PStr "1"); ("name", PStr "a.txt"); ("cid", PStr "Qm1");
   ("size", PInt 12); ("number_of_files", PInt 1); ("group_id", PNone);
   ("created_at", PStr "2024-10-04T09:30:00.000Z");
   ("keyvalues", PDict [("env", PStr "prod")])].

(** ** Vocabulary of the further properties *)

(** ** Requests of the other commands *)

(** The request that checks a token. *)
Definition auth_request (tok : string) : request :=
  Request GET "https://api.pinata.cloud/data/testAuthentication"
    [("accept", "application/json"); ("authorization", "Bearer " +:+ tok)]
    NoBody.

(** The request that uploads bytes under a name. *)
Definition upload_request (tok file_name bytes : string) : request :=
  Request POST "https://uploads.pinata.cloud/v3/files"
    [("Authorization", "Bearer " +:+ tok)]
    (Multipart file_name bytes [("name", file_name)]).

(** A statement sends nothing. *)
Definition silent {A} (m : M A) : Prop :=
  ∀ s, net_calls (trace (fst (m s))) = net_calls (trace s).

(** A statement sends exactly the one request [r]. *)
Definition sends {A} (r : request) (m : M A) : Prop :=
  ∀ s, net_calls (trace (fst (m s))) = (net_calls (trace s) ++ [r])%list.

(** A path: a base name, alone or under a directory. *)
Definition under (dir : option string) (base : string) : string :=
  match dir with
  | None => base
  | Some d => d +:+ String slash base
  end.


(** The update argument parses into a file id and a new name. *)
Definition parses (data file_id new_name : string) : Prop :=
  ∃ a b, unpack2 (split comma data) = Val (a, b) ∧
         py_index (split equals a) 1 = Val file_id ∧
         py_index (split equals b) 1 = Val new_name.

(** The arguments with everything after the first honoured flag removed. *)
Definition first_flag_only (a : args) : args :=
  if setup a then Args true false None false None None None
  else if authtest a then Args false true None false None None None
  else if given (uploadfile a) then
    Args false false (uploadfile a) false None None None
  else if listfiles a then Args false false None true None None None
  else if given (getfile a) then
    Args false false None false (getfile a) None None
  else if given (updatefile a) then
    Args false false None false None (updatefile a) None
  else if given (deletefile a) then
    Args false false None false None None (deletefile a)
  else Args false false None false None None None.

(** * Properties *)

(** ** Strings *)

Lemma split_nonempty sep s : split sep s ≠ [].
Proof. destruct s as [|c s]; simpl; [done|]. repeat case_match; done. Qed.

Lemma split_without sep s : occurs sep s = false → split sep s = [s].
Proof.
  induction s as [|c s IH]; simpl; [done|].
  intros [Hc Hs]%orb_false_elim. rewrite Hc, (IH Hs). done.
Qed.

Lemma split_at sep a b :
  occurs sep a = false →
  split sep (a +:+ String sep b) = a :: split sep b.
Proof.
  induction a as [|c a IH]; simpl.
  - intros _. by rewrite Ascii.eqb_refl.
  - intros [Hc Ha]%orb_false_elim. rewrite Hc, (IH Ha). done.
Qed.

Lemma universal_newlines_id s :
  occurs CR s = false → universal_newlines false s = s.
Proof.
  induction s as [|c s IH]; simpl; [done|].
  intros [Hc Hs]%orb_false_elim. rewrite Hc.
  destruct (Ascii.eqb c LF) eqn:Hlf; rewrite (IH Hs); [|done].
  apply Ascii.eqb_eq in Hlf. by subst.
Qed.

Lemma universal_newlines_empty s :
  universal_newlines false s = "" ↔ s = "".
Proof.
  split; [|by intros ->].
  destruct s as [|c s]; [done|]. simpl. repeat case_match; done.
Qed.

(** ** The credential store *)

Lemma read_token_run E s :
  read_token E s = (s, Val (stored_token E (fs s))).
Proof.
  unfold read_token, stored_token, credentials_path, try_except, bind,
    open_read, lift, ret.
  destruct (fs s !! _) as [[w|[] w [raw|bytes]]|]; reflexivity.
Qed.

Lemma stored_token_unavailable E files :
  unavailable files (credentials_path E) → stored_token E files = NoToken.
Proof. unfold stored_token. by intros [H|w H|w c H|w b H]; rewrite H. Qed.

Lemma no_credential_falsy E files :
  no_credential E files → token_truthy (stored_token E files) = false.
Proof.
  intros [H|[w H]].
  - by rewrite stored_token_unavailable.
  - unfold stored_token. by rewrite H.
Qed.

(** After the token has been read, a command goes on from the same state. *)
Lemma bind_read_token E {A} (k : token → M A) s :
  (t <- read_token E ;; k t) s = k (stored_token E (fs s)) s.
Proof. unfold bind at 1. by rewrite read_token_run. Qed.

(** C7. Loading the credential when the credential file does not exist or
    cannot be read returns the absent signal [False] to the caller, and
    loading never raises: from every state [read_token] returns a value and
    leaves the state as it was. *)
Theorem read_token_absent_never_raises (E : env) (s : state) :
  (unavailable (fs s) (credentials_path E) →
   read_token E s = (s, Val NoToken)) ∧
  (∃ t, read_token E s = (s, Val t)).
Proof.
  rewrite read_token_run. split; [|by eexists].
  intros H. by rewrite stored_token_unavailable.
Qed.

Lemma read_token_absent_witness :
  read_token (example_env offline) (start bare_home []) =
    (start bare_home [], Val NoToken).
Proof.
  apply (proj1 (read_token_absent_never_raises
                  (example_env offline) (start bare_home []))).
  apply missing. reflexivity.
Defined.

(** C8, as stated, fails: a token with a carriage return is saved
    successfully and read back with a line feed in its place. *)
Lemma carriage_return_not_preserved :
  let tok := String "a" (String CR "b") in
  let saved := save_token_to_file (example_env offline) ".credentials" tok
                 (start (home_with_token "") []) in
  snd saved = Val true ∧
  outcome (read_token (example_env offline)) (fst saved) ≠ Val (Token tok).
Proof. split; [reflexivity|]. vm_compute. discriminate. Qed.

(** C8, amended. For every token without a carriage return: when
    [save_token_to_file] stores it in the credential file and reports
    success, and the file was not there before as one the user may not
    read, [read_token] then returns exactly that string. *)
Theorem save_then_read (E : env) (s : state) (tok : string) :
  occurs CR tok = false →
  (∀ w c, fs s !! credentials_path E ≠ Some (File false w c)) →
  snd (save_token_to_file E ".credentials" tok s) = Val true →
  outcome (read_token E) (fst (save_token_to_file E ".credentials" tok s))
    = Val (Token tok).
Proof.
  intros Hcr Hread. unfold outcome. rewrite read_token_run. simpl.
  unfold save_token_to_file, try_except, bind, open_write, write_text,
    set_fs, ret.
  fold (credentials_path E).
  destruct (fs s !! credentials_path E) as [[w|r [] c]|] eqn:Hp;
    simpl; try done.
  - rewrite lookup_insert_eq. simpl. intros _.
    unfold stored_token. rewrite lookup_insert_eq.
    destruct r; [|by destruct (Hread true c)].
    by rewrite universal_newlines_id.
  - destruct (fs s !! parent_dir (credentials_path E)) as [[[]|? ? ?]|];
      simpl; try done.
    rewrite lookup_insert_eq. simpl. intros _.
    unfold stored_token. rewrite lookup_insert_eq.
    by rewrite universal_newlines_id.
Qed.

Lemma save_then_read_witness :
  outcome (read_token (example_env offline))
    (fst (save_token_to_file (example_env offline) ".credentials" "eyJhbGciOi.e30.c2ln"
            (start (home_with_token "old") [])))
  = Val (Token "eyJhbGciOi.e30.c2ln").
Proof.
  apply (save_then_read (example_env offline)
           (start (home_with_token "old") []) "eyJhbGciOi.e30.c2ln").
  - reflexivity.
  - intros w c. vm_compute. discriminate.
  - reflexivity.
Defined.

(** ** Commands without a credential *)

Lemma unpack2_cases {A} (l : list A) :
  (∃ a b, l = [a; b] ∧ unpack2 l = Val (a, b)) ∨
  (length l ≠ 2%nat ∧ ∃ msg, unpack2 l = Exc (Error ValueError msg)).
Proof. destruct l as [|a [|b [|c l]]]; simpl; eauto 6. Qed.

Lemma py_index_cases {A} (l : list A) i :
  (∃ x, py_index l i = Val x) ∨
  py_index l i = Exc (Error IndexError "list index out of range").
Proof. unfold py_index. repeat case_match; eauto. Qed.

(** The guard that opens a command: read the token, leave when it is
    false or empty. *)
Ltac refuse H :=
  unfold refused, outcome, requests, events;
  rewrite bind_read_token; simpl fs;
  rewrite (no_credential_falsy _ _ H); split; [discriminate | reflexivity].

Lemma update_refused E files lines data :
  no_credential E files →
  refused (update_pinata_file E data) (start files lines).
Proof.
  intros H. unfold update_pinata_file.
  unfold bind at 1, lift at 1.
  destruct (unpack2_cases (split comma data))
    as [(a & b & _ & ->)|[_ [m ->]]]; [|by split].
  unfold bind at 1, lift at 1.
  destruct (py_index_cases (split equals a) 1) as [[i ->]| ->]; [|by split].
  unfold bind at 1, lift at 1.
  destruct (py_index_cases (split equals b) 1) as [[n ->]| ->]; [|by split].
  refuse H.
Qed.

(** C1. With the stored credential absent or the credential file empty,
    each of authtest, upload, list, get-details, update and delete ends the
    process with a non-zero status and sends no request.  (For update the
    status comes from [sys.exit(1)] when the argument parses, and from the
    uncaught parsing fault when it does not.) *)
Theorem no_credential_refused (E : env) (files : gmap string node)
    (lines : list string) (file_path file_id data : string) :
  no_credential E files →
  refused (test_pinata_authentication E) (start files lines) ∧
  refused (upload_file_to_pinata E file_path) (start files lines) ∧
  refused (get_pinata_files E) (start files lines) ∧
  refused (get_pinata_file_details E file_id) (start files lines) ∧
  refused (update_pinata_file E data) (start files lines) ∧
  refused (delete_pinata_file E file_id) (start files lines).
Proof.
  intros H. repeat split_and.
  - unfold test_pinata_authentication. refuse H.
  - unfold upload_file_to_pinata. refuse H.
  - unfold get_pinata_files. refuse H.
  - unfold get_pinata_file_details. refuse H.
  - by apply update_refused.
  - unfold delete_pinata_file. refuse H.
Qed.

Lemma no_credential_refused_witness :
  refused (test_pinata_authentication (example_env offline)) (start bare_home ["y"]) ∧
  refused (upload_file_to_pinata (example_env offline) "/tmp/a.txt") (start bare_home ["y"]) ∧
  refused (get_pinata_files (example_env offline)) (start bare_home ["y"]) ∧
  refused (get_pinata_file_details (example_env offline) "7") (start bare_home ["y"]) ∧
  refused (update_pinata_file (example_env offline) "id=7,name=n") (start bare_home ["y"]) ∧
  refused (delete_pinata_file (example_env offline) "7") (start bare_home ["y"]).
Proof.
  apply (no_credential_refused (example_env offline) bare_home ["y"]
           "/tmp/a.txt" "7" "id=7,name=n").
  left. apply missing. reflexivity.
Defined.

(** ** Confirmation of a deletion *)

Lemma lower_ascii_y c : lower_ascii c = "y"%char → c = "y"%char ∨ c = "Y"%char.
Proof. destruct c as [[] [] [] [] [] [] [] []]; vm_compute; intros; try discriminate; auto. Qed.
Lemma lower_ascii_e c : lower_ascii c = "e"%char → c = "e"%char ∨ c = "E"%char.
Proof. destruct c as [[] [] [] [] [] [] [] []]; vm_compute; intros; try discriminate; auto. Qed.
Lemma lower_ascii_s c : lower_ascii c = "s"%char → c = "s"%char ∨ c = "S"%char.
Proof. destruct c as [[] [] [] [] [] [] [] []]; vm_compute; intros; try discriminate; auto. Qed.

Lemma lower_confirms line : lower line ∈ confirms ↔ line ∈ affirmative_inputs.
Proof.
  unfold confirms, affirmative_inputs. split.
  - rewrite !elem_of_cons, elem_of_nil. intros [H|[H|[]]].
    + destruct line as [|c [|]]; simpl in H; try discriminate.
      injection H as H. destruct (lower_ascii_y _ H) as [-> | ->];
        compute_done.
    + destruct line as [|c1 [|c2 [|c3 [|]]]]; simpl in H; try discriminate.
      injection H as H1 H2 H3.
      destruct (lower_ascii_y _ H1) as [-> | ->],
               (lower_ascii_e _ H2) as [-> | ->],
               (lower_ascii_s _ H3) as [-> | ->];
        compute_done.
  - intros H. repeat (apply elem_of_cons in H as [-> | H];
      [compute_done|]).
    by apply elem_of_nil in H.
Qed.

Lemma confirms_affirmative line :
  bool_decide (lower line ∈ confirms) = affirmative line.
Proof. apply bool_decide_ext, lower_confirms. Qed.

Lemma affirmative_nonempty line : affirmative line = true → String.eqb line "" = false.
Proof. by destruct line. Qed.

(** C2. With a token stored, [delete_pinata_file] sends the DELETE request
    if and only if the confirmation line equals "y" or "yes" up to letter
    case; on every other line, the empty one included, it sends nothing and
    ends the process with a non-zero status. *)
Theorem delete_iff_confirmed (E : env) (files : gmap string node)
    (line declined : string) (rest : list string) (file_id : string) :
  (token_truthy (stored_token E files) = true →
   (requests (delete_pinata_file E file_id) (start files (line :: rest))
      = [delete_request (token_str (stored_token E files)) file_id]
    ↔ affirmative line = true)) ∧
  (affirmative declined = false →
   refused (delete_pinata_file E file_id) (start files (declined :: rest))).
Proof.
  split.
  - intros Htok. unfold requests, events, delete_pinata_file.
    rewrite bind_read_token. simpl fs. rewrite Htok. 
    unfold bind, input, emit, ret, print, sys_exit, raise, try_except, send,
      raise_for_status, response_json, delete_request; simpl.
    rewrite confirms_affirmative.
    destruct (String.eqb line "") eqn:Hl.
    { apply String.eqb_eq in Hl as ->. simpl. split; discriminate. }
    simpl. destruct (affirmative line); simpl; [|split; discriminate].
    split; [done|intros _].
    unfold emit; simpl.
    destruct (net E _) as [cls msg|resp]; simpl.
    { destruct cls; reflexivity. }
    destruct ((400 <=? status_code resp) && (status_code resp <? 500));
      simpl; [reflexivity|].
    destruct ((500 <=? status_code resp) && (status_code resp <? 600));
      simpl; [reflexivity|].
    destruct (status_code resp =? 200); simpl; [reflexivity|].
    destruct (json_body resp); reflexivity.
  - intros Hno. unfold refused, outcome, requests, events, delete_pinata_file.
    rewrite bind_read_token. simpl fs.
    destruct (token_truthy _); simpl; [|by split].
    unfold bind, input, emit, ret, print, sys_exit, raise; simpl.
    rewrite confirms_affirmative, Hno.
    destruct (String.eqb declined ""); simpl; by split.
Qed.

Lemma delete_iff_confirmed_witness :
  (requests (delete_pinata_file (example_env offline) "7")
     (start (home_with_token "tok") ["YES"])
   = [delete_request "tok" "7"] ↔ affirmative "YES" = true) ∧
  refused (delete_pinata_file (example_env offline) "7")
    (start (home_with_token "tok") ["no"]).
Proof.
  destruct (delete_iff_confirmed (example_env offline) (home_with_token "tok")
              "YES" "no" [] "7") as [Hyes Hno].
  split; [apply Hyes; reflexivity | apply Hno; reflexivity].
Defined.

(** The declines named by the specification. *)
Lemma named_declines :
  Forall (fun line => affirmative line = false) [""; "N"; "no"; "x"].
Proof. repeat constructor. Qed.

(** ** Outcome of a confirmed deletion *)

Ltac run_monad :=
  unfold bind, input, emit, ret, print, sys_exit, raise, try_except, send,
    raise_for_status, response_json, lift; simpl.

Ltac not_in_trace :=
  let H := fresh in
  intros H; repeat (apply elem_of_cons in H as [H|H]; [discriminate|]);
  by apply elem_of_nil in H.

(** C10. After a confirmed deletion has been answered, the line
    "File deleted successfully" is printed if and only if the status code
    is exactly 200.  For any other 2xx status nothing confirms the
    deletion: the body is parsed as JSON, and when that fails the catch-all
    branch prints the parse failure as an error. *)
Theorem delete_success_only_on_200 (E : env) (files : gmap string node)
    (line : string) (rest : list string) (file_id : string) (resp : response) :
  token_truthy (stored_token E files) = true →
  affirmative line = true →
  net E (delete_request (token_str (stored_token E files)) file_id)
    = Reply resp →
  let run := events (delete_pinata_file E file_id)
               (start files (line :: rest)) in
  (EPrint [Txt "File deleted successfully"] ∈ run ↔ status_code resp = 200) ∧
  (200 ≤ status_code resp < 300 → status_code resp ≠ 200 →
   run = ([EPrompt ("Are you Sure you want to Delete the file with ID ["
                   +:+ file_id +:+ "] (Yes / No):");
          ENet (delete_request (token_str (stored_token E files)) file_id)]
         ++ match json_body resp with
            | Some _ => []
            | None =>
                [EPrint [Obj (error_dict
                   "An error occurred: Expecting value: line 1 column 1 (char 0)")]]
            end)%list).
Proof.
  intros Htok Hyes Hnet. unfold events, delete_pinata_file.
  rewrite bind_read_token. simpl fs. rewrite Htok.
  run_monad. rewrite confirms_affirmative, Hyes.
  rewrite (affirmative_nonempty _ Hyes). simpl.
  unfold delete_request in Hnet. rewrite Hnet. simpl.
  destruct ((400 <=? status_code resp) && (status_code resp <? 500)) eqn:H4;
    simpl.
  { split; [split; [not_in_trace|lia]|lia]. }
  destruct ((500 <=? status_code resp) && (status_code resp <? 600)) eqn:H5;
    simpl.
  { split; [split; [not_in_trace|lia]|lia]. }
  destruct (status_code resp =? 200) eqn:H2; simpl.
  { split; [split; [lia|intros _; set_solver]|lia]. }
  destruct (json_body resp); simpl;
    (split; [split; [not_in_trace|lia]|done]).
Qed.

Lemma delete_success_only_on_200_witness :
  let run := events
    (delete_pinata_file (example_env (replying (Response 204 "No Content" None))) "7")
    (start (home_with_token "tok") ["y"]) in
  (EPrint [Txt "File deleted successfully"] ∈ run ↔ 204 = 200) ∧
  (200 ≤ 204 < 300 → 204 ≠ 200 →
   run = [EPrompt "Are you Sure you want to Delete the file with ID [7] (Yes / No):";
          ENet (delete_request "tok" "7");
          EPrint [Obj (error_dict
            "An error occurred: Expecting value: line 1 column 1 (char 0)")]]).
Proof.
  apply (delete_success_only_on_200
           (example_env (replying (Response 204 "No Content" None)))
           (home_with_token "tok") "y" [] "7"
           (Response 204 "No Content" None)); reflexivity.
Defined.

(** ** The update command *)

Lemma occurs_append c a b : occurs c (a +:+ b) = occurs c a || occurs c b.
Proof. induction a as [|d a IH]; simpl; [done|]. by rewrite IH, orb_assoc. Qed.

Lemma append_assoc a b c : (a +:+ b) +:+ c = a +:+ b +:+ c.
Proof.
  induction a as [|d a IH]; [done|].
  change (String d ((a +:+ b) +:+ c) = String d (a +:+ b +:+ c)).
  by rewrite IH.
Qed.

Lemma update_parsed E files lines data a b file_id new_name :
  unpack2 (split comma data) = Val (a, b) →
  py_index (split equals a) 1 = Val file_id →
  py_index (split equals b) 1 = Val new_name →
  token_truthy (stored_token E files) = true →
  requests (update_pinata_file E data) (start files lines)
    = [update_request (token_str (stored_token E files)) file_id new_name].
Proof.
  intros Hpair Hid Hname Htok. unfold requests, events, update_pinata_file.
  unfold bind at 1, lift at 1. rewrite Hpair.
  unfold bind at 1, lift at 1. rewrite Hid.
  unfold bind at 1, lift at 1. rewrite Hname.
  rewrite bind_read_token. simpl fs. rewrite Htok.
  run_monad. unfold update_request.
  destruct (net E _) as [cls msg|resp]; simpl; [by destruct cls|].
  destruct ((400 <=? status_code resp) && (status_code resp <? 500));
    simpl; [reflexivity|].
  destruct ((500 <=? status_code resp) && (status_code resp <? 600));
    simpl; [reflexivity|].
  destruct (json_body resp); reflexivity.
Qed.

(** C4. With a token stored, the argument "id=42,name=report.pdf" makes
    [update_pinata_file] send one PUT request, to the resource with id "42",
    whose JSON body carries the name "report.pdf" and an empty keyvalues
    map.  An argument without a comma raises a [ValueError] that nothing
    catches, before anything is read, printed or sent. *)
Theorem update_example_and_no_comma (E : env) (files : gmap string node)
    (lines : list string) (data : string) :
  (token_truthy (stored_token E files) = true →
   requests (update_pinata_file E "id=42,name=report.pdf") (start files lines)
     = [update_request (token_str (stored_token E files)) "42" "report.pdf"]) ∧
  (occurs comma data = false →
   ∃ msg, update_pinata_file E data (start files lines)
          = (start files lines, Exc (Error ValueError msg))).
Proof.
  split.
  - intros Htok. by eapply update_parsed.
  - intros Hno. unfold update_pinata_file.
    unfold bind at 1, lift at 1. rewrite (split_without _ _ Hno). simpl.
    by eexists.
Qed.

Lemma update_example_and_no_comma_witness :
  requests (update_pinata_file (example_env offline) "id=42,name=report.pdf")
    (start (home_with_token "tok") [])
  = [update_request "tok" "42" "report.pdf"] ∧
  ∃ msg, update_pinata_file (example_env offline) "id=42"
           (start (home_with_token "tok") [])
         = (start (home_with_token "tok") [], Exc (Error ValueError msg)).
Proof.
  destruct (update_example_and_no_comma (example_env offline)
              (home_with_token "tok") [] "id=42") as [Hput Hfault].
  split; [apply Hput; reflexivity | apply Hfault; reflexivity].
Defined.

(** C9. The parser of the update argument goes by position and ignores
    the names before the "=" signs: on "<k1>=<v1>,<k2>=<v2>" (the four
    parts free of "," and "=") the PUT request goes to resource <v1> with
    the new name <v2>, whatever <k1> and <k2> are. *)
Theorem update_by_position (E : env) (files : gmap string node)
    (lines : list string) (k1 v1 k2 v2 : string) :
  token_truthy (stored_token E files) = true →
  occurs comma k1 = false → occurs equals k1 = false →
  occurs comma v1 = false → occurs equals v1 = false →
  occurs comma k2 = false → occurs equals k2 = false →
  occurs comma v2 = false → occurs equals v2 = false →
  requests (update_pinata_file E (k1 +:+ "=" +:+ v1 +:+ "," +:+ k2 +:+ "=" +:+ v2))
    (start files lines)
  = [update_request (token_str (stored_token E files)) v1 v2].
Proof.
  intros Htok Hk1c Hk1e Hv1c Hv1e Hk2c Hk2e Hv2c Hv2e.
  set (left := k1 +:+ String equals v1).
  set (right := k2 +:+ String equals v2).
  assert (occurs comma left = false) as Hl.
  { subst left. rewrite occurs_append. cbn [occurs]. by rewrite Hk1c, Hv1c. }
  assert (occurs comma right = false) as Hr.
  { subst right. rewrite occurs_append. cbn [occurs]. by rewrite Hk2c, Hv2c. }
  replace (k1 +:+ "=" +:+ v1 +:+ "," +:+ k2 +:+ "=" +:+ v2)
    with (left +:+ String comma right)
    by (subst left right; by rewrite !append_assoc).
  apply (update_parsed _ _ _ _ left right); [| | |done].
  - by rewrite split_at, split_without.
  - subst left. by rewrite split_at, split_without.
  - subst right. by rewrite split_at, split_without.
Qed.

Lemma update_by_position_witness :
  requests (update_pinata_file (example_env offline) "name=a,id=b")
    (start (home_with_token "tok") [])
  = [update_request "tok" "a" "b"].
Proof.
  apply (update_by_position (example_env offline) (home_with_token "tok") []
           "name" "a" "id" "b"); reflexivity.
Defined.

(** ** The presenter *)

Lemma listed_getitem record :
  listed record = true →
  py_getitem record "id" = Val (column "id" record) ∧
  py_getitem record "name" = Val (column "name" record) ∧
  py_getitem record "cid" = Val (column "cid" record) ∧
  py_getitem record "group_id" = Val (column "group_id" record).
Proof.
  unfold listed, has_field, column, py_getitem.
  destruct record as [| | | | | |items]; try discriminate.
  destruct (assoc "id" items), (assoc "name" items), (assoc "cid" items),
    (assoc "group_id" items); done.
Qed.

Lemma rows_of_listed records :
  forallb listed records = true →
  traverse (fun file =>
      id <- py_getitem file "id" ;;;
      name <- py_getitem file "name" ;;;
      cid <- py_getitem file "cid" ;;;
      group_id <- py_getitem file "group_id" ;;;
      Val [CVal id; CVal name; CVal cid; CVal group_id]) records
  = Val (map list_row records).
Proof.
  induction records as [|record records IH]; simpl; [done|].
  intros [Hrec Hall]%andb_prop.
  destruct (listed_getitem _ Hrec) as (-> & -> & -> & ->). simpl.
  by rewrite (IH Hall).
Qed.

(** C5. For every list of file records (dicts carrying id, name, cid and
    group_id), [display_pinata_files] prints one table whose header is
    ID, Name, CID, Group ID and whose rows are the records' four fields, in
    the order of the input list. *)
Theorem display_rows_in_order (s : state) (records : list pyval) :
  forallb listed records = true →
  display_pinata_files (PList records) s =
    (State (fs s) (stdin s)
       (trace s ++ [EPrint [Table (map list_row records)
                              ["ID"; "Name"; "CID"; "Group ID"] "pretty"]])%list,
     Val tt).
Proof.
  intros H. unfold display_pinata_files. run_monad.
  by rewrite (rows_of_listed _ H).
Qed.

Lemma display_rows_in_order_witness :
  display_pinata_files (PList [listing_example]) (start ∅ []) =
    (State ∅ []
       [EPrint [Table [[CVal (PStr "1"); CVal (PStr "a.txt");
                        CVal (PStr "Qm1"); CVal PNone]]
                  ["ID"; "Name"; "CID"; "Group ID"] "pretty"]],
     Val tt).
Proof.
  apply (display_rows_in_order (start ∅ []) [listing_example]). reflexivity.
Defined.

Lemma detail_rows_of (items kvs : list (string * pyval)) :
  default (PDict []) (assoc "keyvalues" items) = PDict kvs →
  detail_rows (PDict items) =
    Val (map (detail_row items) detail_fields ++ keyvalues_row kvs)%list.
Proof.
  unfold detail_rows, py_get, rbind.
  destruct (assoc "keyvalues" items); simpl; intros Hkv; simplify_eq;
    [by destruct kvs|done].
Qed.

(** C6. For every detail record whose keyvalues entry is a map (or is not
    supplied), the detail table has the eight rows ID, Name, CID,
    Size (bytes), Number of Files, MIME Type, Group ID, Created At in this
    order, each showing the record's field or "N/A" when the record lacks
    it, followed by a Keyvalues row exactly when the map is not empty; and
    this is the table [get_pinata_file_details] prints for a successful
    reply. *)
Theorem detail_table (E : env) (files : gmap string node)
    (lines : list string) (file_id : string) (resp : response)
    (parsed : pyval) (items kvs : list (string * pyval)) :
  default (PDict []) (assoc "keyvalues" items) = PDict kvs →
  let rows := (map (detail_row items) detail_fields ++ keyvalues_row kvs)%list in
  detail_rows (PDict items) = Val rows ∧
  (token_truthy (stored_token E files) = true →
   net E (details_request (token_str (stored_token E files)) file_id)
     = Reply resp →
   status_code resp < 400 ∨ 600 ≤ status_code resp →
   json_body resp = Some parsed →
   py_get parsed "data" (PDict []) = Val (PDict items) →
   events (get_pinata_file_details E file_id) (start files lines)
     = [ENet (details_request (token_str (stored_token E files)) file_id);
        EPrint [Table rows ["Field"; "Value"] "pretty"]]).
Proof.
  intros Hkv rows. pose proof (detail_rows_of _ _ Hkv) as Hrows.
  split; [done|].
  intros Htok Hnet Hcode Hbody Hdata.
  unfold events, get_pinata_file_details.
  rewrite bind_read_token. simpl fs. rewrite Htok.
  run_monad. unfold details_request in Hnet. rewrite Hnet. simpl.
  replace ((400 <=? status_code resp) && (status_code resp <? 500))
    with false by lia.
  replace ((500 <=? status_code resp) && (status_code resp <? 600))
    with false by lia.
  simpl. rewrite Hbody. simpl. rewrite Hdata. simpl. rewrite Hrows. done.
Qed.

Lemma detail_table_witness :
  let E := example_env (replying
    (Response 200 "OK" (Some (PDict [("data", PDict detail_example)])))) in
  let rows :=
        [[CVal (PStr "ID"); CVal (PStr "1")];
         [CVal (PStr "Name"); CVal (PStr "a.txt")];
         [CVal (PStr "CID"); CVal (PStr "Qm1")];
         [CVal (PStr "Size (bytes)"); CVal (PInt 12)];
         [CVal (PStr "Number of Files"); CVal (PInt 1)];
         [CVal (PStr "MIME Type"); CVal (PStr "N/A")];
         [CVal (PStr "Group ID"); CVal PNone];
         [CVal (PStr "Created At"); CVal (PStr "2024-10-04T09:30:00.000Z")];
         [CVal (PStr "Keyvalues"); CStrOf (PDict [("env", PStr "prod")])]] in
  detail_rows (PDict detail_example) = Val rows ∧
  events (get_pinata_file_details E "1") (start (home_with_token "tok") [])
    = [ENet (details_request "tok" "1");
       EPrint [Table rows ["Field"; "Value"] "pretty"]].
Proof.
  intros E rows.
  destruct (detail_table E (home_with_token "tok") [] "1"
              (Response 200 "OK" (Some (PDict [("data", PDict detail_example)])))
              (PDict [("data", PDict detail_example)])
              detail_example [("env", PStr "prod")]) as [Hrows Hrun].
  { reflexivity. }
  split; [exact Hrows|].
  apply Hrun; [reflexivity|reflexivity|simpl; lia|reflexivity|reflexivity].
Defined.

(** The listing of the specification's mocked response. *)
Example listing_of_mocked_response :
  events
    (get_pinata_files
       (example_env (replying (Response 200 "OK"
          (Some (PDict [("data", PDict [("files", PList [listing_example])])]))))))
    (start (home_with_token "tok") [])
  = [ENet (listing_request "tok");
     EPrint [Table [[CVal (PStr "1"); CVal (PStr "a.txt");
                     CVal (PStr "Qm1"); CVal PNone]]
               ["ID"; "Name"; "CID"; "Group ID"] "pretty"]].
Proof. reflexivity. Qed.

(** ** Faults and their handlers *)

Create HintDb soft discriminated.

Lemma soft_rbind {A B} (r : res A) (k : A → res B) :
  fails_softly r → (∀ a, fails_softly (k a)) → fails_softly (rbind r k).
Proof. destruct r; simpl; auto. Qed.

Lemma soft_py_get v key d : fails_softly (py_get v key d).
Proof. by destruct v. Qed.

Lemma soft_py_getitem v key : fails_softly (py_getitem v key).
Proof. destruct v; simpl; try done. by destruct (assoc key items). Qed.

Lemma soft_py_contains key v : fails_softly (py_contains key v).
Proof. by destruct v. Qed.

Lemma soft_py_iter v : fails_softly (py_iter v).
Proof. by destruct v. Qed.

Lemma soft_traverse {A B} (f : A → res B) l :
  (∀ a, fails_softly (f a)) → fails_softly (traverse f l).
Proof.
  intros Hf. induction l as [|a l IH]; simpl; [done|].
  apply soft_rbind; [done|]. intros b. apply soft_rbind; done.
Qed.

Lemma soft_detail_rows v : fails_softly (detail_rows v).
Proof.
  unfold detail_rows.
  repeat (apply soft_rbind; [apply soft_py_get|intros ?]).
  by case_match.
Qed.

Lemma soft_ret {A} (a : A) : raises_softly (ret a).
Proof. by intros s. Qed.

Lemma soft_emit e : raises_softly (emit e).
Proof. by intros s. Qed.

Lemma soft_lift {A} (r : res A) : fails_softly r → raises_softly (lift r).
Proof. by intros H s. Qed.

Lemma soft_bind {A B} (m : M A) (k : A → M B) :
  raises_softly m → (∀ a, raises_softly (k a)) → raises_softly (bind m k).
Proof.
  intros Hm Hk s. unfold bind. specialize (Hm s).
  destruct (m s) as [s' [a|e]]; [apply Hk|done].
Qed.

Lemma soft_send E r : raises_softly (send E r).
Proof.
  apply soft_bind; [apply soft_emit|]. intros _ s.
  by destruct (net E r).
Qed.

Lemma soft_raise_for_status u r : raises_softly (raise_for_status u r).
Proof. intros s. unfold raise_for_status. by repeat case_match. Qed.

Lemma soft_response_json r : raises_softly (response_json r).
Proof. intros s. unfold response_json. by case_match. Qed.

Lemma soft_display files : raises_softly (display_pinata_files files).
Proof.
  apply soft_bind; [|intros ?; apply soft_emit].
  apply soft_lift, soft_rbind; [apply soft_py_iter|]. intros l.
  apply soft_traverse. intros file.
  repeat (apply soft_rbind; [apply soft_py_getitem|intros ?]). done.
Qed.

#[local] Hint Resolve soft_ret soft_emit soft_send soft_raise_for_status
  soft_response_json soft_display soft_py_get soft_py_getitem
  soft_py_contains soft_py_iter soft_detail_rows : soft.

Ltac soft :=
  repeat match goal with
    | |- raises_softly (bind _ _) => apply soft_bind; [|intros ?]
    | |- raises_softly (lift _) => apply soft_lift
    | |- raises_softly (print _) => apply soft_emit
    | |- raises_softly (if ?c then _ else _) => destruct c
    | |- fails_softly (rbind _ _) => apply soft_rbind; [|intros ?]
    | |- fails_softly (if ?c then _ else _) => destruct c
    | |- fails_softly (Val _) => exact I
    | |- _ => solve [auto with soft]
    end.

(** The two-clause handler of the commands catches whatever a softly
    raising body raises. *)
Lemma try_except_returns {A} (m : M A) (h1 h2 : exn → M A) :
  raises_softly m → (∀ e, returns (h1 e)) → (∀ e, returns (h2 e)) →
  returns (try_except m [(is_HTTPError, h1); (is_Exception, h2)]).
Proof.
  intros Hm H1 H2 s. unfold try_except. specialize (Hm s).
  destruct (m s) as [s' [a|e]]; simpl in *; [by eexists|].
  destruct (is_HTTPError e); [apply H1|]. rewrite Hm. apply H2.
Qed.

Lemma returns_ret {A} (a : A) : returns (ret a).
Proof. intros s. by eexists. Qed.

Lemma returns_print_then {A} args (a : A) : returns (print args ;; ret a).
Proof. intros s. by eexists. Qed.

Lemma guard_passed E {A} (k : token → M A) files lines :
  token_truthy (stored_token E files) = true →
  (∀ t, returns (k t)) →
  ∃ v, outcome
         (api_key <- read_token E ;;
          (if negb (token_truthy api_key)
           then print [Txt missing_token_message] ;; sys_exit 1
           else ret tt) ;;
          k api_key) (start files lines) = Val v.
Proof.
  intros Htok Hk. unfold outcome. rewrite bind_read_token. simpl fs.
  rewrite Htok. apply Hk.
Qed.

Lemma authtest_returns E files lines :
  token_truthy (stored_token E files) = true →
  ∃ v, outcome (test_pinata_authentication E) (start files lines) = Val v.
Proof.
  intros Htok. apply (guard_passed E _ _ _ Htok). intros t.
  apply try_except_returns; [soft| |]; intros e; apply returns_ret.
Qed.

Lemma listing_returns E files lines :
  token_truthy (stored_token E files) = true →
  ∃ v, outcome (get_pinata_files E) (start files lines) = Val v.
Proof.
  intros Htok. apply (guard_passed E _ _ _ Htok). intros t.
  apply try_except_returns; [soft| |]; intros e; apply returns_ret.
Qed.

Lemma details_returns E files lines file_id :
  token_truthy (stored_token E files) = true →
  ∃ v, outcome (get_pinata_file_details E file_id) (start files lines) = Val v.
Proof.
  intros Htok. apply (guard_passed E _ _ _ Htok). intros t.
  apply try_except_returns; [soft| |]; intros e; apply returns_print_then.
Qed.


Lemma delete_returns E files line rest file_id :
  token_truthy (stored_token E files) = true →
  affirmative line = true →
  ∃ v, outcome (delete_pinata_file E file_id) (start files (line :: rest))
       = Val v.
Proof.
  intros Htok Hyes. unfold outcome, delete_pinata_file.
  rewrite bind_read_token. simpl fs. rewrite Htok. simpl negb. cbv iota.
  unfold bind at 1, ret at 1.
  unfold bind at 1, input, bind at 1, emit at 1. simpl.
  rewrite confirms_affirmative, Hyes, (affirmative_nonempty _ Hyes).
  unfold bind at 1, ret at 1. unfold bind at 1, ret at 1. simpl negb. cbv iota.
  apply try_except_returns; [soft| |]; intros e; apply returns_print_then.
Qed.



(** Past the credential guard, whatever the exchange with the service
    raises (a transport failure, a 4xx or 5xx status, a body that is not
    JSON or not of the expected shape) is caught: the command returns. *)
Lemma exchange_faults_are_caught E files lines line file_id :
  token_truthy (stored_token E files) = true →
  (∃ v, outcome (test_pinata_authentication E) (start files lines) = Val v) ∧
  (∃ v, outcome (get_pinata_files E) (start files lines) = Val v) ∧
  (∃ v, outcome (get_pinata_file_details E file_id) (start files lines) = Val v) ∧
  (affirmative line = true →
   ∃ v, outcome (delete_pinata_file E file_id) (start files (line :: lines))
        = Val v).
Proof.
  intros Htok. repeat split_and.
  - by apply authtest_returns.
  - by apply listing_returns.
  - by apply details_returns.
  - intros Hyes. by apply delete_returns.
Qed.

(** C3 fails on the upload command: the local file is opened before the
    [try] block, so with a token stored and no file at the given path the
    [FileNotFoundError] of [open] reaches the process boundary; nothing is
    printed and nothing is sent. *)
Theorem upload_of_missing_file_propagates :
  upload_file_to_pinata (example_env offline) "/tmp/missing.txt"
    (start (home_with_token "tok") []) =
  (start (home_with_token "tok") [],
   Exc (Error FileNotFoundError
          "[Errno 2] No such file or directory: '/tmp/missing.txt'")).
Proof. reflexivity. Qed.

(** ** The dispatcher and setup, on examples *)

(** Setup on a home directory without configuration creates the
    directory, stores the token and exits with status 0. *)
Example setup_stores_the_token :
  let run := setup_pinata_api (example_env offline)
               (start bare_home ["eyJhbGciOi.e30.c2ln"]) in
  snd run = Exc (SystemExit 0) ∧
  fs (fst run) = home_with_token "eyJhbGciOi.e30.c2ln".
Proof. split; [reflexivity|]. apply map_eq. intros p. vm_compute. reflexivity. Qed.

(** Without any flag the dispatcher prints a usage error and exits 1. *)
Example main_without_flags :
  main (example_env offline)
    (Args false false None false None None None) (start bare_home [])
  = (State bare_home []
       [EPrint [Txt banner];
        EPrint [Txt "Error: Invalid Options, Use -h for detailed Help"]],
     Exc (SystemExit 1)).
Proof. reflexivity. Qed.

(** * Further properties of the commands *)

(** ** Counting requests *)

Lemma net_calls_app t u : net_calls (t ++ u) = (net_calls t ++ net_calls u)%list.
Proof.
  induction t as [|[args|p|r] t IH]; simpl; [done| | |]; by rewrite ?IH.
Qed.

Lemma silent_ret {A} (a : A) : silent (ret a).
Proof. by intros s. Qed.

Lemma silent_raise {A} e : silent (@raise A e).
Proof. by intros s. Qed.

Lemma silent_lift {A} (r : res A) : silent (lift r).
Proof. by intros s. Qed.

Lemma silent_print args : silent (print args).
Proof.
  intros s. unfold print, emit. simpl. rewrite net_calls_app. simpl.
  by rewrite app_nil_r.
Qed.

Lemma silent_bind {A B} (m : M A) (k : A → M B) :
  silent m → (∀ a, silent (k a)) → silent (bind m k).
Proof.
  intros Hm Hk s. unfold bind. specialize (Hm s).
  destruct (m s) as [s' [a|e]]; simpl in *; [|done].
  by rewrite Hk.
Qed.

Lemma silent_try_except {A} (m : M A) hs :
  silent m → Forall (fun h => ∀ e, silent (snd h e)) hs →
  silent (try_except m hs).
Proof.
  intros Hm Hhs s. unfold try_except. specialize (Hm s).
  destruct (m s) as [s' [a|e]]; simpl in *; [done|].
  destruct (select_handler hs e) as [h|] eqn:Hsel; simpl; [|done].
  assert (silent h) as Hh; [|by rewrite Hh].
  clear Hm. induction Hhs as [|[test h'] hs Hh' _ IH]; simpl in Hsel; [done|].
  destruct (test e); [|by apply IH]. injection Hsel as <-. apply Hh'.
Qed.

Lemma silent_raise_for_status u r : silent (raise_for_status u r).
Proof. intros s. unfold raise_for_status. by repeat case_match. Qed.

Lemma silent_response_json r : silent (response_json r).
Proof. intros s. unfold response_json. by case_match. Qed.

Lemma silent_display files : silent (display_pinata_files files).
Proof.
  apply silent_bind; [apply silent_lift|]. intros rows. apply silent_print.
Qed.

Lemma sends_send E r : sends r (send E r).
Proof.
  intros s. unfold send, bind, emit. simpl.
  destruct (net E r); simpl; rewrite net_calls_app; done.
Qed.

Lemma sends_bind {A B} r (m : M A) (k : A → M B) :
  sends r m → (∀ a, silent (k a)) → sends r (bind m k).
Proof.
  intros Hm Hk s. unfold bind. specialize (Hm s).
  destruct (m s) as [s' [a|e]]; simpl in *; [|done].
  by rewrite Hk.
Qed.

Lemma sends_try_except {A} r (m : M A) hs :
  sends r m → Forall (fun h => ∀ e, silent (snd h e)) hs →
  sends r (try_except m hs).
Proof.
  intros Hm Hhs s. unfold try_except. specialize (Hm s).
  destruct (m s) as [s' [a|e]]; simpl in *; [done|].
  destruct (select_handler hs e) as [h|] eqn:Hsel; simpl; [|done].
  assert (silent h) as Hh; [|by rewrite Hh].
  clear Hm. induction Hhs as [|[test h'] hs Hh' _ IH]; simpl in Hsel; [done|].
  destruct (test e); [|by apply IH]. injection Hsel as <-. apply Hh'.
Qed.

Ltac silence :=
  repeat match goal with
    | |- silent (bind _ _) => apply silent_bind; [|intros ?]
    | |- silent (lift _) => apply silent_lift
    | |- silent (ret _) => apply silent_ret
    | |- silent (print _) => apply silent_print
    | |- silent (raise_for_status _ _) => apply silent_raise_for_status
    | |- silent (response_json _) => apply silent_response_json
    | |- silent (display_pinata_files _) => apply silent_display
    | |- silent (if ?c then _ else _) => destruct c
    | |- Forall _ [] => constructor
    | |- Forall _ (_ :: _) => constructor; [intros ?; simpl|]
    | |- sends _ (try_except _ _) => apply sends_try_except
    | |- sends _ (bind (send _ _) _) =>
        apply sends_bind; [apply sends_send|intros ?]
    end.

(** Past the guard: a command that goes on with [k] sends what [k] sends. *)
Lemma guard_then_sends E {A} (k : token → M A) r files lines :
  token_truthy (stored_token E files) = true →
  sends r (k (stored_token E files)) →
  requests
    (api_key <- read_token E ;;
     (if negb (token_truthy api_key)
      then print [Txt missing_token_message] ;; sys_exit 1
      else ret tt) ;;
     k api_key) (start files lines) = [r].
Proof.
  intros Htok Hk. unfold requests, events. rewrite bind_read_token. simpl fs.
  rewrite Htok. simpl negb. cbv iota.
  unfold bind at 1, ret at 1. by rewrite Hk.
Qed.

(** X1. With a token stored, each of the three queries (authentication
    test, listing, details of a file) sends exactly one request, whatever
    the service answers: a GET to its endpoint that carries the stored
    token as bearer. *)
Theorem one_request_per_query (E : env) (files : gmap string node)
    (lines : list string) (file_id : string) :
  token_truthy (stored_token E files) = true →
  requests (test_pinata_authentication E) (start files lines)
    = [auth_request (token_str (stored_token E files))] ∧
  requests (get_pinata_files E) (start files lines)
    = [listing_request (token_str (stored_token E files))] ∧
  requests (get_pinata_file_details E file_id) (start files lines)
    = [details_request (token_str (stored_token E files)) file_id].
Proof.
  intros Htok. repeat split_and;
    apply (guard_then_sends E _ _ _ _ Htok); silence.
Qed.

(** ** The credential guard, from any state *)

Lemma guard_open E {A} (k : token → M A) s :
  token_truthy (stored_token E (fs s)) = true →
  (api_key <- read_token E ;;
   (if negb (token_truthy api_key)
    then print [Txt missing_token_message] ;; sys_exit 1
    else ret tt) ;;
   k api_key) s = k (stored_token E (fs s)) s.
Proof. intros Htok. rewrite bind_read_token, Htok. reflexivity. Qed.


(** ** Upload *)

Lemma split_ends_with sep dir base :
  occurs sep base = false →
  ∃ init, split sep (dir +:+ String sep base) = (init ++ [base])%list
          ∧ init ≠ [].
Proof.
  intros Hbase. induction dir as [|c dir (init & IH & Hne)].
  - exists [EmptyString]. split; [|done].
    change (EmptyString +:+ String sep base) with (String sep base).
    simpl. by rewrite Ascii.eqb_refl, split_without.
  - change (String c dir +:+ String sep base)
      with (String c (dir +:+ String sep base)).
    simpl. rewrite IH. destruct (Ascii.eqb c sep).
    + by exists (EmptyString :: init).
    + destruct init as [|piece init]; [done|]. by exists (String c piece :: init).
Qed.

Lemma py_index_minus_one {A} (l : list A) x :
  py_index (l ++ [x]) (-1) = Val x.
Proof.
  unfold py_index. rewrite length_app. simpl length.
  replace (-1 <? 0) with true by done.
  assert (-1 + Z.of_nat (length l + 1) = Z.of_nat (length l)) as -> by lia.
  assert ((Z.of_nat (length l) <? 0) = false) as ->
    by (apply Z.ltb_ge; lia).
  assert ((Z.of_nat (length l + 1) <=? Z.of_nat (length l)) = false) as ->
    by (apply Z.leb_gt; lia).
  simpl orb. cbv iota.
  rewrite Nat2Z.id. by rewrite list_lookup_middle.
Qed.

Lemma base_name_of dir base :
  occurs slash base = false →
  py_index (split slash (under dir base)) (-1) = Val base.
Proof.
  intros Hbase. destruct dir as [d|]; simpl.
  - destruct (split_ends_with slash d base Hbase) as (init & -> & _).
    apply py_index_minus_one.
  - rewrite (split_without _ _ Hbase). reflexivity.
Qed.

(** X2. With a token stored and a readable file at the path, the upload
    command sends exactly one request, whatever the service answers: a
    POST whose multipart body carries the bytes of the file, with the last
    component of the path as the file name and as the name field. *)
Theorem upload_sends_file_under_base_name (E : env)
    (files : gmap string node) (lines : list string)
    (dir : option string) (base : string) (w : bool) (c : content) :
  token_truthy (stored_token E files) = true →
  occurs slash base = false →
  files !! under dir base = Some (File true w c) →
  requests (upload_file_to_pinata E (under dir base)) (start files lines)
  = [upload_request (token_str (stored_token E files)) base (read_bytes c)].
Proof.
  intros Htok Hbase Hfile. unfold requests, events, upload_file_to_pinata.
  rewrite guard_open by done.
  unfold bind at 1, open_read. simpl fs. rewrite Hfile.
  unfold bind at 1, lift at 1. rewrite (base_name_of _ _ Hbase).
  unfold bind at 1, lift at 1.
  assert (sends (upload_request (token_str (stored_token E files)) base
                   (read_bytes c))
            (try_except
               (print [Txt "File Uploading....."] ;;
                response <- send E (upload_request
                   (token_str (stored_token E files)) base (read_bytes c)) ;;
                raise_for_status "https://uploads.pinata.cloud/v3/files" response ;;
                print [Txt "File Uploaded Successfully, use -l to list new files"] ;;
                response_json response)
               [(is_HTTPError, fun http_err =>
                   print [Obj (error_dict (http_error_text http_err))] ;; ret PNone);
                (is_Exception, fun err =>
                   print [Obj (error_dict (other_error_text err))] ;; ret PNone)]))
    as Hsends.
  { apply sends_try_except; [|silence].
    intros s. unfold bind at 1. unfold print at 1, emit at 1.
    pose proof (sends_bind _ (send E (upload_request
       (token_str (stored_token E files)) base (read_bytes c)))
       (fun response =>
          raise_for_status "https://uploads.pinata.cloud/v3/files" response ;;
          print [Txt "File Uploaded Successfully, use -l to list new files"] ;;
          response_json response) (sends_send _ _)) as Hs.
    rewrite Hs by (intros ?; silence).
    simpl. rewrite net_calls_app. simpl. by rewrite app_nil_r. }
  by rewrite Hsends.
Qed.

Lemma upload_sends_file_under_base_name_witness :
  requests
    (upload_file_to_pinata (example_env offline) "/home/u/notes/a.txt")
    (start (<["/home/u/notes/a.txt" := File true false (Text "hello")]>
              (home_with_token "tok")) [])
  = [upload_request "tok" "a.txt" "hello"].
Proof.
  exact (upload_sends_file_under_base_name (example_env offline)
           (<["/home/u/notes/a.txt" := File true false (Text "hello")]>
              (home_with_token "tok")) []
           (Some "/home/u/notes") "a.txt" false (Text "hello")
           eq_refl eq_refl eq_refl).
Defined.

(** ** Failures of the queries *)

Lemma status_tests code :
  400 ≤ code < 600 →
  ((400 <=? code) && (code <? 500) = true) ∨
  ((400 <=? code) && (code <? 500) = false ∧
   (500 <=? code) && (code <? 600) = true).
Proof.
  intros H. destruct (decide (code < 500)).
  - left. apply andb_true_intro. split; [apply Z.leb_le|apply Z.ltb_lt]; lia.
  - right. split.
    + apply andb_false_intro2. apply Z.ltb_ge. lia.
    + apply andb_true_intro. split; [apply Z.leb_le|apply Z.ltb_lt]; lia.
Qed.

Lemma status_passes code :
  ¬ (400 ≤ code < 600) →
  (400 <=? code) && (code <? 500) = false ∧
  (500 <=? code) && (code <? 600) = false.
Proof.
  intros H. split; apply andb_false_iff.
  - destruct (decide (400 ≤ code));
      [right; apply Z.ltb_ge; lia|left; apply Z.leb_gt; lia].
  - destruct (decide (500 ≤ code));
      [right; apply Z.ltb_ge; lia|left; apply Z.leb_gt; lia].
Qed.



(** ** Listings that cannot be shown *)





(** X5. When the answer is a dict without "data", or its "data" is a dict
    without "files", the listing prints "Error:" followed by the answer as
    it came, and returns the answer. *)
Theorem listing_of_unexpected_shape (E : env) (files : gmap string node)
    (lines : list string) (resp : response)
    (answer : list (string * pyval)) :
  token_truthy (stored_token E files) = true →
  net E (listing_request (token_str (stored_token E files))) = Reply resp →
  ¬ (400 ≤ status_code resp < 600) →
  json_body resp = Some (PDict answer) →
  (assoc "data" answer = None ∨
   ∃ data, assoc "data" answer = Some (PDict data) ∧ assoc "files" data = None) →
  events (get_pinata_files E) (start files lines)
    = [ENet (listing_request (token_str (stored_token E files)));
       EPrint [Txt "Error:"; Obj (PDict answer)]] ∧
  outcome (get_pinata_files E) (start files lines) = Val (PDict answer).
Proof.
  intros Htok Hnet Hcode Hbody Hshape.
  unfold events, outcome, get_pinata_files.
  rewrite guard_open by done. simpl fs. run_monad.
  unfold listing_request in Hnet. rewrite Hnet. simpl.
  destruct (status_passes _ Hcode) as [-> ->]. simpl.
  rewrite Hbody. simpl.
  destruct Hshape as [-> | (data & -> & Hfiles)]; simpl; [done|].
  by rewrite Hfiles.
Qed.

Lemma listing_of_unexpected_shape_witness :
  let E := example_env (replying (Response 200 "OK"
    (Some (PDict [("error", PStr "not ready")])))) in
  events (get_pinata_files E) (start (home_with_token "tok") [])
    = [ENet (listing_request "tok");
       EPrint [Txt "Error:"; Obj (PDict [("error", PStr "not ready")])]] ∧
  outcome (get_pinata_files E) (start (home_with_token "tok") [])
    = Val (PDict [("error", PStr "not ready")]).
Proof.
  intros E.
  apply (listing_of_unexpected_shape E (home_with_token "tok") []
           (Response 200 "OK" (Some (PDict [("error", PStr "not ready")])))
           [("error", PStr "not ready")]);
    [reflexivity|reflexivity|simpl; lia|reflexivity|by left].
Defined.

(** ** One line or one table for a detail query *)

(** X6. With a token stored, the detail command sends one request and
    prints exactly once, whatever the service does: the table, or one line
    of error text; and it returns [None]. *)
Theorem details_print_once (E : env) (files : gmap string node)
    (lines : list string) (file_id : string) :
  token_truthy (stored_token E files) = true →
  ∃ shown,
    get_pinata_file_details E file_id (start files lines)
    = (State files lines
         [ENet (details_request (token_str (stored_token E files)) file_id);
          EPrint [shown]],
       Val PNone).
Proof.
  intros Htok. unfold get_pinata_file_details.
  rewrite guard_open by done. simpl fs. run_monad.
  destruct (net E _) as [cls msg|resp]; simpl.
  { destruct cls; simpl; by eexists. }
  destruct ((400 <=? status_code resp) && (status_code resp <? 500));
    simpl; [by eexists|].
  destruct ((500 <=? status_code resp) && (status_code resp <? 600));
    simpl; [by eexists|].
  destruct (json_body resp) as [parsed|]; simpl; [|by eexists].
  destruct (py_get parsed "data" (PDict [])) as [file_data|e] eqn:Hdata; simpl.
  - destruct (detail_rows file_data) as [rows|e] eqn:Hrows; simpl;
      [by eexists|].
    pose proof (soft_detail_rows file_data) as Hsoft. rewrite Hrows in Hsoft.
    simpl in Hsoft. destruct e as [|cls msg]; [done|].
    destruct cls; simpl; by eexists.
  - pose proof (soft_py_get parsed "data" (PDict [])) as Hsoft.
    rewrite Hdata in Hsoft. simpl in Hsoft. destruct e as [|cls msg]; [done|].
    destruct cls; simpl; by eexists.
Qed.

Lemma details_print_once_witness :
  ∃ shown,
    get_pinata_file_details (example_env offline) "7"
      (start (home_with_token "tok") [])
    = (State (home_with_token "tok") []
         [ENet (details_request "tok" "7"); EPrint [shown]],
       Val PNone).
Proof.
  apply (details_print_once (example_env offline) (home_with_token "tok")
           [] "7").
  reflexivity.
Defined.

(** ** More on the update argument *)

Lemma py_index_one {A} (a b : A) (l : list A) :
  py_index (a :: b :: l) 1 = Val b.
Proof.
  unfold py_index. simpl length.
  replace (1 <? 0) with false by done.
  assert ((Z.of_nat (S (S (length l))) <=? 1) = false) as ->
    by (apply Z.leb_gt; lia).
  reflexivity.
Qed.

Lemma py_index_one_short {A} (a : A) :
  py_index [a] 1 = Exc (Error IndexError "list index out of range").
Proof. reflexivity. Qed.

(** X7. An argument with more than one comma is rejected by the tuple
    unpacking with a [ValueError], and an argument with one comma but a
    part without "=" by the indexing with an [IndexError]; either fault
    is uncaught and comes before the token is read: the state is left as
    it was, nothing is printed or sent. *)
Theorem update_rejects_malformed (E : env) (s : state) (a b c : string) :
  occurs comma a = false →
  occurs comma b = false →
  update_pinata_file E (a +:+ "," +:+ b +:+ "," +:+ c) s
    = (s, Exc (Error ValueError "too many values to unpack (expected 2)")) ∧
  (occurs equals a = false ∨ occurs equals b = false →
   update_pinata_file E (a +:+ "," +:+ b) s
     = (s, Exc (Error IndexError "list index out of range"))).
Proof.
  intros Ha Hb. split.
  - unfold update_pinata_file. unfold bind at 1, lift at 1.
    change (a +:+ "," +:+ b +:+ "," +:+ c)
      with (a +:+ String comma (b +:+ String comma c)).
    rewrite !split_at by done.
    pose proof (split_nonempty comma c).
    by destruct (split comma c).
  - intros Heq. unfold update_pinata_file. unfold bind at 1, lift at 1.
    change (a +:+ "," +:+ b) with (a +:+ String comma b).
    rewrite split_at, split_without by done. simpl.
    destruct (occurs equals a) eqn:Hea.
    + destruct Heq as [|Heb]; [done|].
      unfold bind at 1, lift at 1.
      destruct (py_index_cases (split equals a) 1) as [[i ->]| ->]; [|done].
      unfold bind at 1, lift at 1.
      by rewrite (split_without _ _ Heb).
    + unfold bind at 1, lift at 1. by rewrite (split_without _ _ Hea).
Qed.

Lemma update_rejects_malformed_witness :
  update_pinata_file (example_env offline) "id=7,name=n,x=y"
    (start (home_with_token "tok") [])
    = (start (home_with_token "tok") [],
       Exc (Error ValueError "too many values to unpack (expected 2)")) ∧
  update_pinata_file (example_env offline) "id=7,name"
    (start (home_with_token "tok") [])
    = (start (home_with_token "tok") [],
       Exc (Error IndexError "list index out of range")).
Proof.
  split.
  - apply (update_rejects_malformed (example_env offline)
             (start (home_with_token "tok") []) "id=7" "name=n" "x=y");
      reflexivity.
  - apply (update_rejects_malformed (example_env offline)
             (start (home_with_token "tok") []) "id=7" "name" "");
      [reflexivity|reflexivity|by right].
Defined.

(** X8. Only the text between the first and the second "=" of a part is
    used: on "<k1>=<v1>,<k2>=<x>=<y>" the new name that is sent is <x>,
    and "=<y>" is dropped without notice. *)
Theorem update_cuts_name_at_equals (E : env) (files : gmap string node)
    (lines : list string) (k1 v1 k2 x y : string) :
  token_truthy (stored_token E files) = true →
  occurs comma k1 = false → occurs equals k1 = false →
  occurs comma v1 = false → occurs equals v1 = false →
  occurs comma k2 = false → occurs equals k2 = false →
  occurs comma x = false → occurs equals x = false →
  occurs comma y = false →
  requests
    (update_pinata_file E
       (k1 +:+ "=" +:+ v1 +:+ "," +:+ k2 +:+ "=" +:+ x +:+ "=" +:+ y))
    (start files lines)
  = [update_request (token_str (stored_token E files)) v1 x].
Proof.
  intros Htok Hk1c Hk1e Hv1c Hv1e Hk2c Hk2e Hxc Hxe Hyc.
  set (left := k1 +:+ String equals v1).
  set (right := k2 +:+ String equals (x +:+ String equals y)).
  assert (occurs comma left = false) as Hl.
  { subst left. rewrite occurs_append. cbn [occurs]. by rewrite Hk1c, Hv1c. }
  assert (occurs comma right = false) as Hr.
  { subst right. rewrite occurs_append. cbn [occurs].
    rewrite occurs_append. cbn [occurs]. by rewrite Hk2c, Hxc, Hyc. }
  replace (k1 +:+ "=" +:+ v1 +:+ "," +:+ k2 +:+ "=" +:+ x +:+ "=" +:+ y)
    with (left +:+ String comma right)
    by (subst left right; by rewrite !append_assoc).
  apply (update_parsed _ _ _ _ left right); [| | |done].
  - by rewrite split_at, split_without.
  - subst left. by rewrite split_at, split_without.
  - subst right. rewrite !split_at by done.
    pose proof (split_nonempty equals y).
    destruct (split equals y); [done|]. apply py_index_one.
Qed.

Lemma update_cuts_name_at_equals_witness :
  requests (update_pinata_file (example_env offline) "id=7,name=a=b")
    (start (home_with_token "tok") [])
  = [update_request "tok" "7" "a"].
Proof.
  apply (update_cuts_name_at_equals (example_env offline)
           (home_with_token "tok") [] "id" "7" "name" "a" "b"); reflexivity.
Defined.

Lemma update_events E files lines data file_id new_name resp :
  token_truthy (stored_token E files) = true →
  parses data file_id new_name →
  net E (update_request (token_str (stored_token E files)) file_id new_name)
    = Reply resp →
  (400 ≤ status_code resp < 600 →
   ∃ msg, events (update_pinata_file E data) (start files lines)
          = [ENet (update_request (token_str (stored_token E files))
                     file_id new_name);
             EPrint [Obj (error_dict msg)]]) ∧
  (¬ (400 ≤ status_code resp < 600) →
   events (update_pinata_file E data) (start files lines)
   = ENet (update_request (token_str (stored_token E files)) file_id new_name)
     :: EPrint [Txt "values updated successfully, run -l to check updated values"]
     :: match json_body resp with
        | Some _ => []
        | None => [EPrint [Obj (error_dict
            "An error occurred: Expecting value: line 1 column 1 (char 0)")]]
        end).
Proof.
  intros Htok (a & b & Hpair & Hid & Hname) Hnet.
  unfold update_request in Hnet.
  split; intros Hcode; unfold events, update_pinata_file;
    (unfold bind at 1, lift at 1; rewrite Hpair);
    (unfold bind at 1, lift at 1; rewrite Hid);
    (unfold bind at 1, lift at 1; rewrite Hname);
    rewrite guard_open by done; simpl fs; run_monad; rewrite Hnet; simpl.
  - destruct (status_tests _ Hcode) as [-> | [-> ->]]; simpl; by eexists.
  - destruct (status_passes _ Hcode) as [-> ->]. simpl.
    by destruct (json_body resp).
Qed.

(** X9. With a token stored, a well-formed argument and an answer from the
    service, the update command prints its success line if and only if
    the status is not a 4xx or 5xx one.  When such an answer has no JSON
    body, the success line is followed by an error line, because the body
    is parsed inside the same [try] block. *)
Theorem update_success_line (E : env) (files : gmap string node)
    (lines : list string) (data file_id new_name : string)
    (resp : response) :
  token_truthy (stored_token E files) = true →
  parses data file_id new_name →
  net E (update_request (token_str (stored_token E files)) file_id new_name)
    = Reply resp →
  let run := events (update_pinata_file E data) (start files lines) in
  (EPrint [Txt "values updated successfully, run -l to check updated values"]
     ∈ run ↔ ¬ (400 ≤ status_code resp < 600)) ∧
  (¬ (400 ≤ status_code resp < 600) → json_body resp = None →
   run = [ENet (update_request (token_str (stored_token E files))
                  file_id new_name);
          EPrint [Txt "values updated successfully, run -l to check updated values"];
          EPrint [Obj (error_dict
            "An error occurred: Expecting value: line 1 column 1 (char 0)")]]).
Proof.
  intros Htok Hparse Hnet run.
  destruct (update_events E files lines data file_id new_name resp
              Htok Hparse Hnet) as [Hbad Hgood].
  fold run in Hbad, Hgood.
  destruct (decide (400 ≤ status_code resp < 600)) as [Hcode|Hcode].
  - destruct (Hbad Hcode) as [msg ->].
    split; [split; [not_in_trace|by intros []]|by intros []].
  - rewrite (Hgood Hcode). split.
    + split; [by intros _|intros _; set_solver].
    + by intros _ ->.
Qed.

Lemma update_success_line_witness :
  let run := events
    (update_pinata_file (example_env (replying (Response 200 "OK" None)))
       "id=7,name=n")
    (start (home_with_token "tok") []) in
  (EPrint [Txt "values updated successfully, run -l to check updated values"]
     ∈ run ↔ ¬ (400 ≤ 200 < 600)) ∧
  (¬ (400 ≤ 200 < 600) → @None pyval = None →
   run = [ENet (update_request "tok" "7" "n");
          EPrint [Txt "values updated successfully, run -l to check updated values"];
          EPrint [Obj (error_dict
            "An error occurred: Expecting value: line 1 column 1 (char 0)")]]).
Proof.
  apply (update_success_line (example_env (replying (Response 200 "OK" None)))
           (home_with_token "tok") [] "id=7,name=n" "7" "n"
           (Response 200 "OK" None)).
  - reflexivity.
  - by exists "id=7", "name=n".
  - reflexivity.
Defined.

(** ** Deletion without an answer to the prompt *)

(** X10. With a token stored and the input at its end, the delete command
    shows its prompt and then fails with an uncaught [EOFError]; no
    request is sent. *)
Theorem delete_at_end_of_input (E : env) (files : gmap string node)
    (file_id : string) :
  token_truthy (stored_token E files) = true →
  delete_pinata_file E file_id (start files [])
  = (State files []
       [EPrompt ("Are you Sure you want to Delete the file with ID ["
                 +:+ file_id +:+ "] (Yes / No):")],
     Exc (Error EOFError "EOF when reading a line")).
Proof.
  intros Htok. unfold delete_pinata_file.
  rewrite guard_open by done. reflexivity.
Qed.

Lemma delete_at_end_of_input_witness :
  delete_pinata_file (example_env offline) "7"
    (start (home_with_token "tok") [])
  = (State (home_with_token "tok") []
       [EPrompt "Are you Sure you want to Delete the file with ID [7] (Yes / No):"],
     Exc (Error EOFError "EOF when reading a line")).
Proof.
  apply (delete_at_end_of_input (example_env offline)
           (home_with_token "tok") "7").
  reflexivity.
Defined.

(** ** The dispatcher *)





(** X12. Flags are not validated against each other: the first one in the
    order setup, authtest, upload, list, get, update, delete that is set
    (for a valued option: given and not empty) decides the run, and all the
    others are ignored. *)
Theorem main_first_flag_wins (E : env) (a : args) (s : state) :
  main E a s = main E (first_flag_only a) s.
Proof.
  unfold main, first_flag_only.
  destruct (setup a); [done|].
  destruct (authtest a); [done|].
  destruct (given (uploadfile a)) eqn:Hu; [simpl; by rewrite Hu|].
  destruct (listfiles a); [done|].
  destruct (given (getfile a)) eqn:Hg; [simpl; by rewrite Hg|].
  destruct (given (updatefile a)) eqn:Hp; [simpl; by rewrite Hp|].
  destruct (given (deletefile a)) eqn:Hd; [simpl; by rewrite Hd|].
  done.
Qed.

(** ** Setup and the credential store *)

Lemma mkdir_run path s :
  ∃ s' r, mkdir path s = (s', r) ∧ stdin s' = stdin s ∧ trace s' = trace s ∧
          fails_softly r ∧
          (∀ u, r = Val u → fs s' !! path = Some (Dir true)).
Proof.
  unfold mkdir, set_fs.
  destruct (fs s !! path) as [n|].
  { eexists _, _. split; [done|]. by repeat split. }
  destruct (fs s !! parent_dir path) as [[[]|? ? ?]|];
    eexists _, _; (split; [done|]); simpl; repeat split; try done.
  intros _ _. apply lookup_insert_eq.
Qed.

Lemma makedirs_from_run depth path s :
  ∃ s' r, makedirs_from depth path s = (s', r) ∧
          stdin s' = stdin s ∧ trace s' = trace s ∧ fails_softly r ∧
          (∀ u, r = Val u → fs s' !! path = Some (Dir true)).
Proof.
  revert path s. induction depth as [|depth IH]; intros path s; simpl.
  { apply mkdir_run. }
  unfold bind at 1, path_exists at 1.
  destruct (bool_decide (is_Some (fs s !! parent_dir path))).
  - unfold bind at 1, ret at 1. apply mkdir_run.
  - unfold bind at 1, try_except.
    destruct (IH (parent_dir path) s) as (s1 & r1 & -> & Hin & Htr & Hsoft & _).
    destruct r1 as [[]|e]; simpl.
    + destruct (mkdir_run path s1)
        as (s' & r & -> & Hin' & Htr' & Hsoft' & Hdir').
      eexists _, _. split; [done|]. rewrite Hin', Htr'. by repeat split.
    + simpl in Hsoft. destruct e as [code|cls msg]; [done|].
      destruct cls; simpl;
        try (eexists _, _; (split; [done|]); by repeat split).
      destruct (mkdir_run path s1)
        as (s' & r & -> & Hin' & Htr' & Hsoft' & Hdir').
      eexists _, _. split; [done|]. rewrite Hin', Htr'. by repeat split.
Qed.

Lemma create_pinata_directory_run (E : env) (dir_name : string)
    (s : state) :
  ∃ s' b,
    create_pinata_directory E dir_name s = (s', Val b) ∧
    stdin s' = stdin s ∧
    net_calls (trace s') = net_calls (trace s) ∧
    (is_Some (fs s !! path_join (home E) dir_name) → s' = s ∧ b = true) ∧
    (b = true → is_Some (fs s' !! path_join (home E) dir_name)).
Proof.
  unfold create_pinata_directory, try_except.
  unfold bind at 1, path_exists at 1.
  destruct (bool_decide (is_Some (fs s !! path_join (home E) dir_name)))
    eqn:Hex; simpl.
  - apply bool_decide_eq_true in Hex. eexists _, _. by repeat split.
  - apply bool_decide_eq_false in Hex. unfold bind at 1, makedirs.
    destruct (makedirs_from_run
                (String.length (path_join (home E) dir_name))
                (path_join (home E) dir_name) s)
      as (s1 & r1 & -> & Hin & Htr & Hsoft & Hdir).
    destruct r1 as [[]|e]; simpl.
    + eexists _, _. split; [done|]. rewrite Hin, Htr.
      repeat split; [done|]. intros _. rewrite (Hdir tt); done.
    + simpl in Hsoft. destruct e as [code|cls msg]; [done|]. simpl.
      eexists _, _. split; [done|]. simpl. rewrite Hin, Htr.
      rewrite net_calls_app. simpl. rewrite app_nil_r.
      repeat split; done.
Qed.

(** X13. [create_pinata_directory] never raises.  When something already
    exists at the path (a directory or anything else) it answers [True]
    and changes nothing; and whenever it answers [True] the path exists
    afterwards.  It neither reads input nor sends a request. *)
Theorem create_pinata_directory_result (E : env) (dir_name : string)
    (s : state) :
  ∃ s' b,
    create_pinata_directory E dir_name s = (s', Val b) ∧
    stdin s' = stdin s ∧
    net_calls (trace s') = net_calls (trace s) ∧
    (is_Some (fs s !! path_join (home E) dir_name) → s' = s ∧ b = true) ∧
    (b = true → is_Some (fs s' !! path_join (home E) dir_name)).
Proof. apply create_pinata_directory_run. Qed.

Lemma create_pinata_directory_result_witness :
  ∃ s' b,
    create_pinata_directory (example_env offline) ".pinata" (start bare_home [])
      = (s', Val b) ∧
    stdin s' = [] ∧
    net_calls (trace s') = [] ∧
    (is_Some (bare_home !! "/home/u/.pinata") →
     s' = start bare_home [] ∧ b = true) ∧
    (b = true → is_Some (fs s' !! "/home/u/.pinata")).
Proof.
  exact (create_pinata_directory_result (example_env offline) ".pinata"
           (start bare_home [])).
Defined.

Lemma save_token_to_file_run (E : env) (file_name content : string)
    (s : state) :
  let path := path_join (path_join (home E) ".pinata") file_name in
  ∃ s' b,
    save_token_to_file E file_name content s = (s', Val b) ∧
    stdin s' = stdin s ∧
    net_calls (trace s') = net_calls (trace s) ∧
    (∀ p, p ≠ path → fs s' !! p = fs s !! p) ∧
    (b = true → ∃ r, fs s' !! path = Some (File r true (Text content))) ∧
    (fs s !! path = None → fs s !! parent_dir path = None →
     b = false ∧ fs s' = fs s).
Proof.
  intros path. unfold save_token_to_file, try_except.
  fold path. unfold bind at 1, open_write, set_fs.
  assert (∀ (t : list event) args,
            net_calls (t ++ [EPrint args]) = net_calls t) as Hquiet.
  { intros t args. rewrite net_calls_app. simpl. apply app_nil_r. }
  destruct (fs s !! path) as [[w|r [] c]|] eqn:Hp; simpl.
  - eexists _, _. split; [done|]. simpl. rewrite Hquiet. by split_and!.
  - unfold bind at 1, write_text, set_fs. simpl. rewrite lookup_insert_eq.
    simpl. eexists _, _. split; [done|]. simpl. split_and!; try done.
    + intros p Hne. by rewrite !lookup_insert_ne.
    + intros _. eexists. apply lookup_insert_eq.
  - eexists _, _. split; [done|]. simpl. rewrite Hquiet. by split_and!.
  - destruct (fs s !! parent_dir path) as [[[]|? ? ?]|] eqn:Hd; simpl.
    + unfold bind at 1, write_text, set_fs. simpl. rewrite lookup_insert_eq.
      simpl. eexists _, _. split; [done|]. simpl. split_and!; try done.
      * intros p Hne. by rewrite !lookup_insert_ne.
      * intros _. eexists. apply lookup_insert_eq.
    + eexists _, _. split; [done|]. simpl. rewrite Hquiet. by split_and!.
    + eexists _, _. split; [done|]. simpl. rewrite Hquiet. by split_and!.
    + eexists _, _. split; [done|]. simpl. rewrite Hquiet. by split_and!.
Qed.

(** X14. [save_token_to_file] never raises and answers with a boolean.  It
    touches no path but its own file; after the answer [True] that file
    holds exactly the new content, whatever it held before; and it does
    not create the directory: with neither the file nor its directory in
    place the answer is [False] and the file system is as before. *)
Theorem save_token_effect (E : env) (file_name content : string)
    (s : state) :
  let path := path_join (path_join (home E) ".pinata") file_name in
  ∃ s' b,
    save_token_to_file E file_name content s = (s', Val b) ∧
    stdin s' = stdin s ∧
    net_calls (trace s') = net_calls (trace s) ∧
    (∀ p, p ≠ path → fs s' !! p = fs s !! p) ∧
    (b = true → ∃ r, fs s' !! path = Some (File r true (Text content))) ∧
    (fs s !! path = None → fs s !! parent_dir path = None →
     b = false ∧ fs s' = fs s).
Proof. apply save_token_to_file_run. Qed.

Lemma save_token_effect_witness :
  ∃ s' b,
    save_token_to_file (example_env offline) ".credentials" "tok"
      (start bare_home []) = (s', Val b) ∧
    stdin s' = [] ∧
    net_calls (trace s') = [] ∧
    (∀ p, p ≠ "/home/u/.pinata/.credentials" → fs s' !! p = bare_home !! p) ∧
    (b = true →
     ∃ r, fs s' !! "/home/u/.pinata/.credentials"
          = Some (File r true (Text "tok"))) ∧
    (bare_home !! "/home/u/.pinata/.credentials" = None →
     bare_home !! parent_dir "/home/u/.pinata/.credentials" = None →
     b = false ∧ fs s' = bare_home).
Proof.
  exact (save_token_effect (example_env offline) ".credentials" "tok"
           (start bare_home [])).
Defined.

Lemma setup_run E files JWT rest :
  ∃ s' code,
    setup_pinata_api E (start files (JWT :: rest))
      = (s', Exc (SystemExit code)) ∧
    (code = 0 ∨ code = 1) ∧
    net_calls (trace s') = [] ∧
    stdin s' = rest ∧
    (code = 0 →
     ∃ r, fs s' !! credentials_path E = Some (File r true (Text JWT))).
Proof.
  assert (∀ (t : list event) args,
            net_calls (t ++ [EPrint args]) = net_calls t) as Hquiet.
  { intros t args. rewrite net_calls_app. simpl. apply app_nil_r. }
  unfold setup_pinata_api.
  unfold bind at 1, input, bind at 1, emit at 1. simpl.
  unfold bind at 1.
  destruct (create_pinata_directory_run E ".pinata"
              (State files rest [EPrompt "Enter Your Pinata JWT:"]))
    as (s1 & b1 & -> & Hin1 & Hnet1 & _ & _).
  simpl in Hin1, Hnet1. destruct b1.
  - unfold bind at 1.
    destruct (save_token_to_file_run E ".credentials" JWT s1)
      as (s2 & b2 & -> & Hin2 & Hnet2 & _ & Hfile & _).
    destruct b2; eexists _, _; (split; [reflexivity|]); simpl;
      rewrite Hquiet, Hnet2, Hnet1, Hin2, Hin1; split_and!; auto.
    intros [=].
  - eexists _, _. split; [reflexivity|]. simpl.
    rewrite Hquiet, Hnet1, Hin1. split_and!; auto. intros [=].
Qed.

(** X15. Given a line of input, setup always ends the process through
    [sys.exit], with status 0 or 1, sends no request and reads no more
    than that line; it ends with status 0 only when the credential file
    then holds exactly the line entered. *)
Theorem setup_outcome (E : env) (files : gmap string node)
    (JWT : string) (rest : list string) :
  ∃ s' code,
    setup_pinata_api E (start files (JWT :: rest))
      = (s', Exc (SystemExit code)) ∧
    (code = 0 ∨ code = 1) ∧
    net_calls (trace s') = [] ∧
    stdin s' = rest ∧
    (code = 0 →
     ∃ r, fs s' !! credentials_path E = Some (File r true (Text JWT))).
Proof. apply setup_run. Qed.

Lemma setup_outcome_witness :
  ∃ s' code,
    setup_pinata_api (example_env offline) (start bare_home ["tok"; "more"])
      = (s', Exc (SystemExit code)) ∧
    (code = 0 ∨ code = 1) ∧
    net_calls (trace s') = [] ∧
    stdin s' = ["more"] ∧
    (code = 0 →
     ∃ r, fs s' !! "/home/u/.pinata/.credentials"
          = Some (File r true (Text "tok"))).
Proof.
  exact (setup_outcome (example_env offline) bare_home "tok" ["more"]).
Defined.

(** X16. Setup does not look at what was entered: after an empty line it
    can end with status 0 like after any other, and the credential it
    leaves behind is none, so that every later command is refused. *)
Theorem setup_accepts_empty_token (E : env) (files : gmap string node)
    (rest : list string) (s' : state) :
  setup_pinata_api E (start files ("" :: rest)) = (s', Exc (SystemExit 0)) →
  no_credential E (fs s') ∧
  token_truthy (stored_token E (fs s')) = false.
Proof.
  intros Hrun.
  destruct (setup_run E files "" rest) as (s2 & code & Hrun' & _ & _ & _ & Hfile).
  rewrite Hrun in Hrun'. injection Hrun' as <- <-.
  destruct (Hfile eq_refl) as [r Hr].
  assert (no_credential E (fs s')) as Hno.
  { destruct r.
    - right. by eexists.
    - left. by eapply not_permitted. }
  split; [done|]. by apply no_credential_falsy.
Qed.

Lemma setup_accepts_empty_token_witness :
  no_credential (example_env offline) (home_with_token "") ∧
  token_truthy (stored_token (example_env offline) (home_with_token ""))
    = false.
Proof.
  apply (setup_accepts_empty_token (example_env offline) bare_home []
           (State (home_with_token "") []
              [EPrompt "Enter Your Pinata JWT:";
               EPrint [Txt "Token Saved Sucessfully, You can Proceed with Other Activities"]])).
  vm_compute. reflexivity.
Defined.

(** ** The exit status after an exchange *)



Lemma one_request_per_query_witness :
  requests (test_pinata_authentication (example_env offline))
    (start (home_with_token "tok") [])
    = [auth_request "tok"] ∧
  requests (get_pinata_files (example_env offline))
    (start (home_with_token "tok") [])
    = [listing_request "tok"] ∧
  requests (get_pinata_file_details (example_env offline) "7")
    (start (home_with_token "tok") [])
    = [details_request "tok" "7"].
Proof.
  apply (one_request_per_query (example_env offline)
           (home_with_token "tok") [] "7").
  reflexivity.
Defined.
